(** * Personal Knowledge Organizer backend: ingestion-to-answer pipeline

    A shallow embedding of the Python backend ([backend/app]) and the
    properties of its specification that were checked against it.

    Conventions of the embedding.
    - Python [str] and [bytes] values are [string]s; characters are the
      code points below 256.
    - Python dictionaries with string keys are [gmap]s over [string];
      a parsed JSON body is a [jsonval].
    - Code that raises, mutates module globals or talks to a collaborator
      (file system, OCR, embedding model, vector store, HTTP) lives in the
      monad [M]: a state monad over [World] with exceptions.  State changes
      made before an exception is raised are kept, as in Python.
    - Logging and wall-clock measurements ([logger.*], [time.time]) have no
      influence on results and are left out. *)

From Stdlib Require Import String Ascii ZArith List Lia Bool.
From stdpp Require Import base option list strings gmap pretty.

Local Open Scope string_scope.
Local Open Scope list_scope.
Local Open Scope Z_scope.

(** ** Python strings *)

Module Str.

(** [str.isspace] on the code points below 256. *)
Definition isspace (c : ascii) : bool :=
    let n := nat_of_ascii c in
    ((9 <=? n) && (n <=? 13) || (28 <=? n) && (n <=? 32)
     || (n =? 133) || (n =? 160))%nat.

Fixpoint drop_spaces (l : list ascii) : list ascii :=
    match l with
    | c :: l' => if isspace c then drop_spaces l' else l
    | [] => []
    end.

Definition lstrip (s : string) : string :=
    string_of_list_ascii (drop_spaces (list_ascii_of_string s)).

Definition rstrip (s : string) : string :=
    string_of_list_ascii
      (rev (drop_spaces (rev (list_ascii_of_string s)))).

(** [s.strip()] *)
Definition strip (s : string) : string := rstrip (lstrip s).

(** [s.rstrip("/")] *)
Fixpoint drop_slashes (l : list ascii) : list ascii :=
    match l with
    | c :: l' => if Ascii.eqb c "/" then drop_slashes l' else l
    | [] => []
    end.

Definition rstrip_slash (s : string) : string :=
    string_of_list_ascii
      (rev (drop_slashes (rev (list_ascii_of_string s)))).

(** The lower-case mapping of the code points below 256: the letters
    [A]-[Z] and the Latin-1 capitals 192-222, the multiplication sign 215
    apart. *)
Definition lower_char (c : ascii) : ascii :=
    let n := nat_of_ascii c in
    if ((65 <=? n) && (n <=? 90)
        || (192 <=? n) && (n <=? 222) && negb (n =? 215))%nat
    then ascii_of_nat (n + 32) else c.

Fixpoint map_chars (f : ascii -> ascii) (s : string) : string :=
    match s with
    | EmptyString => EmptyString
    | String c s' => String (f c) (map_chars f s')
    end.

(** [s.lower()] *)
Definition lower : string -> string := map_chars lower_char.

(** [sep.join(l)] *)
Definition join (sep : string) (l : list string) : string :=
    String.concat sep l.

(** [s.startswith(p)] *)
Definition startswith (p s : string) : bool := String.prefix p s.

(** Truthiness of a string: [bool(s)]. *)
Definition nonempty (s : string) : bool :=
    match s with EmptyString => false | _ => true end.

(** [s[i:]] for [0 <= i]. *)
Fixpoint drop (i : nat) (s : string) : string :=
    match i, s with
    | O, _ => s
    | S i', String _ s' => drop i' s'
    | S _, EmptyString => EmptyString
    end.

(** [s.rfind(c)]: index of the last occurrence of [c], if any. *)
Fixpoint rfind (c : ascii) (s : string) : option nat :=
    match s with
    | EmptyString => None
    | String d s' =>
        match rfind c s' with
        | Some i => Some (S i)
        | None => if Ascii.eqb c d then Some O else None
        end
    end.

(** [str(n)] for an integer. *)
Definition of_Z (z : Z) : string := pretty z.

End Str.

(** The line feed, ["\n"]. *)
Definition nl : string := String "010" "".

(** The double quote character. *)
Definition dquote : string := String "034" "".

(** [x or y] on strings. *)
Definition str_or (x y : string) : string :=
  if Str.nonempty x then x else y.

Definition opt_str_or (x : option string) (y : string) : string :=
  match x with Some s => str_or s y | None => y end.

(** ** Values stored in metadata dictionaries *)

Inductive pyval :=
| PyNone
| PyStr (s : string)
| PyInt (z : Z)
| PyBool (b : bool).

(** What an f-string prints for a value ([str(v)]); a missing key read with
    [dict.get] is [None]. *)
Definition py_str (v : pyval) : string :=
  match v with
  | PyNone => "None"
  | PyStr s => s
  | PyInt z => Str.of_Z z
  | PyBool true => "True"
  | PyBool false => "False"
  end.

Definition dict_get (d : gmap string pyval) (k : string) : pyval :=
  default PyNone (d !! k).

(** A [float] is only carried around by this code, never computed with; it
    is represented by its IEEE-754 binary64 bit pattern. *)
Record pyfloat := Float { float_bits : Z }.

(** ** [pathlib.Path] *)

Module Path.

Record t := mk { absolute : bool; parts : list string }.

(** [p / name] for a [name] without separators: an empty or ["."]
    component is dropped. *)
Definition div (p : t) (name : string) : t :=
    if String.eqb name "" || String.eqb name "."
    then p
    else mk (absolute p) (parts p ++ [name]).

(** [Path(name)] for a [name] without separators. *)
Definition of_name (name : string) : t := div (mk false []) name.

Definition name (p : t) : string := List.last (parts p) "".

(** [p.suffix]: the final component from its last dot on, unless that
    dot is the first or the last character. *)
Definition suffix (p : t) : string :=
    let n := name p in
    match Str.rfind "." n with
    | Some i =>
        if ((0 <? i) && (i <? String.length n - 1))%nat
        then Str.drop i n else ""
    | None => ""
    end.

(** [p.as_posix()] *)
Definition as_posix (p : t) : string :=
    if absolute p then "/" +:+ Str.join "/" (parts p)
    else match parts p with
         | [] => "."
         | _ => Str.join "/" (parts p)
         end.

(** Removal of [".."] components, from the root. *)
Fixpoint normalize (acc : list string) (l : list string) : list string :=
    match l with
    | [] => List.rev acc
    | c :: l' =>
        if String.eqb c ".." then normalize (List.tl acc) l'
        else normalize (c :: acc) l'
    end.

(** [p.resolve()] in working directory [cwd]; the directories involved
    hold no symbolic links. *)
Definition resolve (cwd : list string) (p : t) : t :=
    mk true (normalize [] (if absolute p then parts p else cwd ++ parts p)).

End Path.

(** [os.path.basename] *)
Definition basename (s : string) : string :=
  match Str.rfind "/" s with
  | Some i => Str.drop (S i) s
  | None => s
  end.

(** ** app/errors.py and the other exceptions the code meets *)

(** The six [BackendError] subclasses come first; the remaining
    constructors are exceptions of the runtime and of third-party
    libraries.  All of them derive from [Exception]. *)
Inductive exn :=
| OllamaUnavailable (msg : string)
| OllamaModelMissing (msg : string)
| OllamaRequestFailed (msg : string)
| EmbeddingModelError (msg : string)
| TesseractError (msg : string)
| VectorDbError (msg : string)
| ValueError (msg : string)
| HTTPException (status_code : Z) (detail : string)
| RequestsTimeout (msg : string)
| FuturesTimeout
| OtherException (cls : string) (msg : string).

(** [isinstance(e, BackendError)] *)
Definition is_backend_error (e : exn) : bool :=
  match e with
  | OllamaUnavailable _ | OllamaModelMissing _ | OllamaRequestFailed _
  | EmbeddingModelError _ | TesseractError _ | VectorDbError _ => true
  | _ => false
  end.

(** [str(exc)] *)
Definition exn_str (e : exn) : string :=
  match e with
  | OllamaUnavailable m | OllamaModelMissing m | OllamaRequestFailed m
  | EmbeddingModelError m | TesseractError m | VectorDbError m
  | ValueError m | RequestsTimeout m | OtherException _ m => m
  | HTTPException c d => Str.of_Z c +:+ ": " +:+ d
  | FuturesTimeout => ""
  end.

(** ** JSON values

    What [json.loads] builds, with the operations this code applies to
    such values. *)

#[warnings="-register-all"]
Inductive jsonval :=
| JNull
| JBool (b : bool)
| JInt (z : Z)
| JFloat (f : pyfloat)
| JStr (s : string)
| JList (items : list jsonval)
| JObject (members : gmap string jsonval).

Module Json.

(** [type(v).__name__] *)
Definition type_name (v : jsonval) : string :=
  match v with
  | JNull => "NoneType"
  | JBool _ => "bool"
  | JInt _ => "int"
  | JFloat _ => "float"
  | JStr _ => "str"
  | JList _ => "list"
  | JObject _ => "dict"
  end.

(** [bool(v)]; the two zeros of [float] are [0.0] and [-0.0]. *)
Definition truthy (v : jsonval) : bool :=
  match v with
  | JNull => false
  | JBool b => b
  | JInt z => negb (z =? 0)
  | JFloat f => negb ((float_bits f =? 0) || (float_bits f =? 2 ^ 63))
  | JStr s => Str.nonempty s
  | JList items => match items with [] => false | _ => true end
  | JObject members => negb (Nat.eqb (size members) 0)
  end.

Definition AttributeError (v : jsonval) (attr : string) : exn :=
  OtherException "AttributeError"
    ("'" +:+ type_name v +:+ "' object has no attribute '" +:+ attr +:+ "'").

(** [v.get(key, dflt)]: only a [dict] has the method. *)
Definition get (v : jsonval) (key : string) (dflt : jsonval) : exn + jsonval :=
  match v with
  | JObject members => inr (default dflt (members !! key))
  | _ => inl (AttributeError v "get")
  end.

(** The items [for m in v] visits: a [dict] gives its keys, whose order
    plays no role here, and a [str] its characters. *)
Definition iter (v : jsonval) : exn + list jsonval :=
  match v with
  | JList items => inr items
  | JObject members => inr (map (fun kv => JStr (fst kv)) (map_to_list members))
  | JStr s => inr (map (fun c => JStr (String c "")) (list_ascii_of_string s))
  | _ => inl (OtherException "TypeError"
                ("'" +:+ type_name v +:+ "' object is not iterable"))
  end.

(** Whether [hash(v)] is defined, and the exception when it is not. *)
Definition hashable (v : jsonval) : bool :=
  match v with
  | JList _ | JObject _ => false
  | _ => true
  end.

Definition unhashable (v : jsonval) : exn :=
  OtherException "TypeError" ("unhashable type: '" +:+ type_name v +:+ "'").

(** [v == s] for a string [s] *)
Definition eq_str (s : string) (v : jsonval) : bool :=
  match v with
  | JStr s' => String.eqb s' s
  | _ => false
  end.

(** [v.strip()]: only a [str] has the method. *)
Definition strip (v : jsonval) : exn + string :=
  match v with
  | JStr s => inr (Str.strip s)
  | _ => inl (AttributeError v "strip")
  end.

End Json.

(** ** app/config.py *)

Inductive Provider := ollama | hf.

Record Settings := {
  uploads_path : Path.t;
  chroma_db_path : Path.t;
  chunk_size : Z;
  chunk_overlap : Z;
  embedding_model_name : string;
  llm_provider : Provider;
  ollama_base_url : string;
  ollama_model : string;
  ollama_temperature : pyfloat;
  ollama_max_tokens : Z;
  ollama_timeout_seconds : Z;
  health_timeout_seconds : Z;
  ocr_timeout_seconds : Z;
  hf_model_name : string;
  hf_temperature : pyfloat;
  hf_max_new_tokens : Z;
  top_k : Z;
  gpu_available : bool
}.

(** ** Data carried through the pipeline *)

(** [{"text": ..., "metadata": {...}}]: documents and chunks alike. *)
Record Doc := mkDoc { text : string; metadata : gmap string pyval }.

(** A record persisted by the vector store. *)
Record StoredRecord := mkStored {
  rec_id : string;
  rec_text : string;
  rec_meta : gmap string pyval;
  rec_embedding : list pyfloat
}.

(** The dictionary returned by [collection.query]: one row per query
    text under each of its keys; a key may be absent or [None]. *)
Record QueryResult := mkQueryResult {
  documents : option (list (list string));
  metadatas : option (list (list (option (gmap string pyval))));
  distances : option (list (list (option pyfloat)))
}.

(** An HTTP response of [requests]: status, body, and the value
    [resp.json()] returns, if the body parses as JSON. *)
Record Response := mkResponse {
  resp_status : Z;
  resp_text : string;
  resp_json : option jsonval
}.

(** A parsed PDF: its encryption flag and what [extract_text] returns per
    page. *)
Record PdfReader := mkPdf {
  is_encrypted : bool;
  pages : list (option string)
}.

(** Handles of the process-wide singletons. *)
Inductive SentenceTransformer := mkEmbedder (name : string) (on_cuda : bool).
Inductive Client := PersistentClient (path : string).
Inductive Collection := mkCollection (name : string).
Inductive LLMClient :=
| OllamaClient (base_url : string)
| HuggingFaceClient (device : string).

(** ** The collaborators

    What the external collaborators answer when they do answer.  Their
    transient failures are not part of these functions: they come from the
    fault schedule of the [World]. *)
Class Env := {
  settings : Settings;
  (** working directory of the process *)
  cwd : list string;
  (** [bytes.decode("utf-8", errors="ignore")] *)
  decode_utf8_ignore : string -> string;
  (** [pypdf.PdfReader] on the bytes of a file *)
  pdf_reader : string -> PdfReader;
  (** whether [import pytesseract] succeeded *)
  pytesseract_present : bool;
  (** [pytesseract.image_to_string] on the bytes of an image *)
  image_to_string : string -> option string;
  (** [RecursiveCharacterTextSplitter(chunk_size, chunk_overlap,
      separators).split_text] *)
  split_text : Z -> Z -> string -> list string;
  (** [SentenceTransformer.encode(...).tolist()] *)
  encode : list string -> list (list pyfloat);
  (** what [collection.query] answers over the stored records for a
      query text and [n_results]; a rejection of its arguments is an
      exception *)
  search : list StoredRecord -> string -> Z -> exn + QueryResult;
  (** [requests.get] and [requests.post] when the transport works *)
  http_get : string -> Response;
  http_post : string -> string -> Response;
  (** tokenizer, sampling and decoding of the in-process model: the text
      generated after the prompt *)
  hf_generate : string -> string;
  (** [str.upper], the upper-case mapping of the interpreter: its Unicode
      tables send some characters beyond the code points represented
      here, so it is taken as given *)
  str_upper : string -> string
}.

(** ** The world: module globals, disk, fault schedule, trace *)

(** Calls that leave the process. *)
Inductive Event :=
| EvUploadRead (filename : string)
| EvWriteBytes (path : string)
| EvReadText (path : string)
| EvPdfOpen (path : string)
| EvPdfDecrypt
| EvPdfPages
| EvPdfExtract
| EvOcr (path : string)
| EvModelLoad (name : string)
| EvModelToCuda
| EvEncode (texts : list string)
| EvPathExists (path : string)
| EvRmtree (path : string)
| EvMkdir (path : string)
| EvChromaClient (path : string)
| EvGetOrCreateCollection (name : string)
| EvCollectionAdd (n : nat)
| EvCollectionGet
| EvCollectionCount
| EvCollectionQuery (query_text : string) (n_results : Z)
| EvHttpGet (url : string)
| EvHttpPost (url : string)
| EvHfLoad (name : string)
| EvHfGenerate.

Record World := mkWorld {
  (** module globals *)
  _EMBEDDER : option SentenceTransformer;
  _CLIENT : option Client;
  _COLLECTION : option Collection;
  _LLM_CLIENT : option LLMClient;
  (** the directory at [chroma_db_path]: absent, or the records it holds *)
  chroma_dir : option (list StoredRecord);
  (** whether the directory at [uploads_path] exists, and the files *)
  uploads_dir : bool;
  files : gmap string string;
  (** source of [uuid.uuid4] *)
  uuid_next : nat;
  (** transient failures to come: one entry per call that leaves the
      process, [Some e] making that call raise [e] *)
  faults : list (option exn);
  (** the calls that left the process so far, oldest first *)
  trace : list Event
}.

Definition set_EMBEDDER (v : option SentenceTransformer) (w : World) : World :=
  mkWorld v (_CLIENT w) (_COLLECTION w) (_LLM_CLIENT w) (chroma_dir w)
          (uploads_dir w) (files w) (uuid_next w) (faults w) (trace w).

Definition set_CLIENT (v : option Client) (w : World) : World :=
  mkWorld (_EMBEDDER w) v (_COLLECTION w) (_LLM_CLIENT w) (chroma_dir w)
          (uploads_dir w) (files w) (uuid_next w) (faults w) (trace w).

Definition set_COLLECTION (v : option Collection) (w : World) : World :=
  mkWorld (_EMBEDDER w) (_CLIENT w) v (_LLM_CLIENT w) (chroma_dir w)
          (uploads_dir w) (files w) (uuid_next w) (faults w) (trace w).

Definition set_LLM_CLIENT (v : option LLMClient) (w : World) : World :=
  mkWorld (_EMBEDDER w) (_CLIENT w) (_COLLECTION w) v (chroma_dir w)
          (uploads_dir w) (files w) (uuid_next w) (faults w) (trace w).

Definition set_chroma_dir (v : option (list StoredRecord)) (w : World) : World :=
  mkWorld (_EMBEDDER w) (_CLIENT w) (_COLLECTION w) (_LLM_CLIENT w) v
          (uploads_dir w) (files w) (uuid_next w) (faults w) (trace w).

Definition set_uploads_dir (v : bool) (w : World) : World :=
  mkWorld (_EMBEDDER w) (_CLIENT w) (_COLLECTION w) (_LLM_CLIENT w)
          (chroma_dir w) v (files w) (uuid_next w) (faults w) (trace w).

Definition set_files (v : gmap string string) (w : World) : World :=
  mkWorld (_EMBEDDER w) (_CLIENT w) (_COLLECTION w) (_LLM_CLIENT w)
          (chroma_dir w) (uploads_dir w) v (uuid_next w) (faults w) (trace w).

Definition set_uuid_next (v : nat) (w : World) : World :=
  mkWorld (_EMBEDDER w) (_CLIENT w) (_COLLECTION w) (_LLM_CLIENT w)
          (chroma_dir w) (uploads_dir w) (files w) v (faults w) (trace w).

Definition set_faults (v : list (option exn)) (w : World) : World :=
  mkWorld (_EMBEDDER w) (_CLIENT w) (_COLLECTION w) (_LLM_CLIENT w)
          (chroma_dir w) (uploads_dir w) (files w) (uuid_next w) v (trace w).

Definition log_event (ev : Event) (w : World) : World :=
  mkWorld (_EMBEDDER w) (_CLIENT w) (_COLLECTION w) (_LLM_CLIENT w)
          (chroma_dir w) (uploads_dir w) (files w) (uuid_next w) (faults w)
          (trace w ++ [ev]).

(** ** The monad of the embedding *)

Inductive result (A : Type) :=
| Ok (a : A)
| Raise (e : exn).

Arguments Ok {A} a.
Arguments Raise {A} e.

Definition M (A : Type) : Type := World -> result A * World.

Definition ret {A} (a : A) : M A := fun w => (Ok a, w).

Definition raise {A} (e : exn) : M A := fun w => (Raise e, w).

Definition bind {A B} (m : M A) (k : A -> M B) : M B :=
  fun w =>
    match m w with
    | (Ok a, w') => k a w'
    | (Raise e, w') => (Raise e, w')
    end.

(** [try: m  except Exception as exc: h exc] *)
Definition try_except {A} (m : M A) (h : exn -> M A) : M A :=
  fun w =>
    match m w with
    | (Ok a, w') => (Ok a, w')
    | (Raise e, w') => h e w'
    end.

Definition get {A} (f : World -> A) : M A := fun w => (Ok (f w), w).

Definition modify (f : World -> World) : M unit := fun w => (Ok tt, f w).

(** A computation without effect that returns or raises. *)
Definition lift {A} (r : exn + A) : M A :=
  match r with
  | inl e => raise e
  | inr a => ret a
  end.

Notation "'do' x <- m ; k" := (bind m (fun x => k))
  (at level 10, x name, m at level 100, k at level 200).
Notation "'do' ' p <- m ; k" := (bind m (fun x => let 'p := x in k))
  (at level 10, p pattern, m at level 100, k at level 200).
Notation "'run' m ; k" := (bind m (fun _ => k))
  (at level 10, m at level 100, k at level 200).

(** A call that leaves the process: it is recorded in the trace, takes
    the next entry of the fault schedule and, unless that entry makes it
    raise, proceeds with [act]. *)
Definition ext {A} (ev : Event) (act : M A) : M A :=
  fun w =>
    let w1 := log_event ev w in
    match faults w1 with
    | Some e :: fs => (Raise e, set_faults fs w1)
    | None :: fs => act (set_faults fs w1)
    | [] => act w1
    end.

(** [for x in l: body x], with an accumulator. *)
Fixpoint for_each {A S} (l : list A) (body : A -> S -> M S) (s : S) : M S :=
  match l with
  | [] => ret s
  | x :: l' => do s' <- body x s; for_each l' body s'
  end.

(** ** app/ingestion/loader.py *)

Module loader.
Section loader.
Context `{E : Env}.

(** The bytes of the file at [path], as [open] finds them. *)
Definition read_bytes (path : Path.t) : M string :=
  fun w =>
    match files w !! Path.as_posix path with
    | Some b => (Ok b, w)
    | None =>
        (Raise (OtherException "FileNotFoundError" (Path.as_posix path)), w)
    end.

Definition _read_text_file (path : Path.t) : M string :=
  try_except
    (ext (EvReadText (Path.as_posix path))
       (do b <- read_bytes path; ret (decode_utf8_ignore b)))
    (fun exc => raise exc).

Definition _read_pdf_file (path : Path.t) : M string :=
  try_except
    (do reader <- ext (EvPdfOpen (Path.as_posix path))
                    (do b <- read_bytes path; ret (pdf_reader b));
     do locked <-
       (if is_encrypted reader
        then try_except (run ext EvPdfDecrypt (ret tt); ret false)
                        (fun _ => ret true)
        else ret false);
     if locked : bool then ret ""
     else
       do ps <- ext EvPdfPages (ret (pages reader));
       do text_parts <-
         for_each ps
           (fun page text_parts =>
              do page_text <-
                try_except
                  (ext EvPdfExtract (ret (default "" page)))
                  (fun _ => ret "");
              if Str.nonempty page_text
              then ret (text_parts ++ [page_text])
              else ret text_parts)
           [];
       ret (Str.join nl text_parts))
    (fun _ => ret "").

Definition _read_image_file (path : Path.t) : M string :=
  if negb pytesseract_present
  then raise (TesseractError "Tesseract not installed")
  else
    try_except
      (ext (EvOcr (Path.as_posix path))
         (do b <- read_bytes path; ret (default "" (image_to_string b))))
      (fun exc =>
         match exc with
         | FuturesTimeout => raise (TesseractError "OCR timed out")
         | _ => raise (TesseractError "OCR failed")
         end).

Definition detect_file_type (path : Path.t) : option string :=
  let suffix := Str.lower (Path.suffix path) in
  if String.eqb suffix ".txt" then Some "txt"
  else if String.eqb suffix ".md" then Some "md"
  else if String.eqb suffix ".pdf" then Some "pdf"
  else if String.eqb suffix ".png" || String.eqb suffix ".jpg"
          || String.eqb suffix ".jpeg" then Some "image"
  else None.

Definition load_file (path : Path.t) : M (list Doc) :=
  let path := Path.resolve cwd path in
  match detect_file_type path with
  | None =>
      raise (ValueError ("Unsupported file type for " +:+ Path.as_posix path))
  | Some ftype =>
      do text <-
        (if String.eqb ftype "txt" || String.eqb ftype "md"
         then _read_text_file path
         else if String.eqb ftype "pdf" then _read_pdf_file path
         else _read_image_file path);
      let text := Str.strip text in
      if negb (Str.nonempty text) then ret []
      else
        let metadata : gmap string pyval :=
          <["file_type" := PyStr ftype]>
            (<["source_file" := PyStr (Path.as_posix path)]> ∅) in
        ret [mkDoc text metadata]
  end.

End loader.
End loader.

(** ** app/ingestion/chunker.py *)

Module chunker.
Section chunker.
Context `{E : Env}.

Definition get_text_splitter : string -> list string :=
  split_text (chunk_size settings) (chunk_overlap settings).

(** [enumerate(l)], counting from [i]. *)
Fixpoint enumerate_from {A} (i : Z) (l : list A) : list (Z * A) :=
  match l with
  | [] => []
  | x :: l' => (i, x) :: enumerate_from (i + 1) l'
  end.

Definition enumerate {A} (l : list A) : list (Z * A) := enumerate_from 0 l.

Definition chunk_documents (documents : list Doc) : list Doc :=
  let splitter := get_text_splitter in
  fold_left
    (fun chunks doc =>
       let text := text doc in
       let base_meta := metadata doc in
       if negb (Str.nonempty (Str.strip text)) then chunks
       else
         let split_texts := splitter text in
         fold_left
           (fun chunks '(idx, chunk_text) =>
              let metadata := <["chunk_index" := PyInt idx]> base_meta in
              chunks ++ [mkDoc chunk_text metadata])
           (enumerate split_texts) chunks)
    documents [].

End chunker.
End chunker.

(** ** app/embeddings/embedder.py *)

Module embedder.
Section embedder.
Context `{E : Env}.

Definition get_embedder : M SentenceTransformer :=
  do cur <- get _EMBEDDER;
  match cur with
  | Some model => ret model
  | None =>
      let name := embedding_model_name settings in
      do model <-
        try_except
          (do model <- ext (EvModelLoad name) (ret (mkEmbedder name false));
           do model <-
             (if gpu_available settings
              then ext EvModelToCuda (ret (mkEmbedder name true))
              else ret model);
           run modify (set_EMBEDDER (Some model));
           ret model)
          (fun _ => raise (EmbeddingModelError "Embedding model missing"));
      ret model
  end.

Definition embed_texts (texts : list string) : M (list (list pyfloat)) :=
  match texts with
  | [] => ret []
  | _ =>
      do model <- get_embedder;
      do embeddings <-
        try_except
          (ext (EvEncode texts) (ret (encode texts)))
          (fun _ => raise (EmbeddingModelError "Embedding model missing"));
      ret embeddings
  end.

End embedder.
End embedder.

(** ** app/config.py: [ensure_directories] *)

Module config.
Section config.
Context `{E : Env}.

(** [mkdir(parents=True, exist_ok=True)] on both data directories. *)
Definition ensure_directories : M unit :=
  run ext (EvMkdir (Path.as_posix (uploads_path settings)))
        (modify (set_uploads_dir true));
  ext (EvMkdir (Path.as_posix (chroma_db_path settings)))
    (modify (fun w =>
               match chroma_dir w with
               | None => set_chroma_dir (Some []) w
               | Some _ => w
               end)).

End config.
End config.

(** ** app/vectorstore/chroma_store.py *)

Module chroma_store.
Section chroma_store.
Context `{E : Env}.

Definition _COLLECTION_NAME : string := "pko_documents".

Definition db_path : string := Path.as_posix (chroma_db_path settings).

(** *** The vector storage backend

    The capability the code consumes from [chromadb]: a persistent
    collection of records in the directory at [chroma_db_path], supporting
    add, query, get-all and count.  Opening a client creates the directory
    when it is absent; every other operation needs it to be there. *)

Definition store_gone {A} : M A :=
  raise (OtherException "chromadb.errors.InternalError" "no such table").

Definition chromadb_PersistentClient (path : string) : M Client :=
  ext (EvChromaClient path)
    (run modify (fun w =>
                   match chroma_dir w with
                   | None => set_chroma_dir (Some []) w
                   | Some _ => w
                   end);
     ret (PersistentClient path)).

Definition client_get_or_create_collection (client : Client) (name : string)
  : M Collection :=
  ext (EvGetOrCreateCollection name)
    (do d <- get chroma_dir;
     match d with
     | Some _ => ret (mkCollection name)
     | None => store_gone
     end).

(** [zip(ids, documents, metadatas, embeddings)] as records. *)
Fixpoint make_records (ids texts : list string)
    (metas : list (gmap string pyval)) (embs : list (list pyfloat))
  : list StoredRecord :=
  match ids, texts, metas, embs with
  | i :: ids', t :: texts', m :: metas', e :: embs' =>
      mkStored i t m e :: make_records ids' texts' metas' embs'
  | _, _, _, _ => []
  end.

Definition collection_add (collection : Collection) (ids texts : list string)
    (metas : list (gmap string pyval)) (embs : list (list pyfloat)) : M unit :=
  ext (EvCollectionAdd (length ids))
    (if negb (length embs =? length ids)%nat
     then raise (ValueError "Unequal lengths for fields")
     else
       do d <- get chroma_dir;
       match d with
       | Some rs =>
           modify (set_chroma_dir
                     (Some (rs ++ make_records ids texts metas embs)))
       | None => store_gone
       end).

(** [collection.get(include=["metadatas"])["metadatas"]] *)
Definition collection_get (collection : Collection)
  : M (list (option (gmap string pyval))) :=
  ext EvCollectionGet
    (do d <- get chroma_dir;
     match d with
     | Some rs => ret (map (fun r => Some (rec_meta r)) rs)
     | None => store_gone
     end).

Definition collection_count (collection : Collection) : M Z :=
  ext EvCollectionCount
    (do d <- get chroma_dir;
     match d with
     | Some rs => ret (Z.of_nat (length rs))
     | None => store_gone
     end).

Definition collection_query (collection : Collection) (query_text : string)
    (n_results : Z) : M QueryResult :=
  ext (EvCollectionQuery query_text n_results)
    (do d <- get chroma_dir;
     match d with
     | Some rs =>
         match search rs query_text n_results with
         | inl e => raise e
         | inr r => ret r
         end
     | None => store_gone
     end).

(** *** The module *)

Definition _get_client : M Client :=
  do cur <- get _CLIENT;
  match cur with
  | Some client => ret client
  | None =>
      run config.ensure_directories;
      do client <-
        try_except (chromadb_PersistentClient db_path)
                   (fun _ => raise (VectorDbError "Vector DB error"));
      run modify (set_CLIENT (Some client));
      ret client
  end.

Definition get_vector_store : M Collection :=
  do cur <- get _COLLECTION;
  match cur with
  | Some collection => ret collection
  | None =>
      do client <- _get_client;
      do collection <-
        try_except (client_get_or_create_collection client _COLLECTION_NAME)
                   (fun _ => raise (VectorDbError "Vector DB error"));
      run modify (set_COLLECTION (Some collection));
      ret collection
  end.

(** [str(uuid.uuid4())] for each chunk. *)
Definition uuid4 : M string :=
  do n <- get uuid_next;
  run modify (set_uuid_next (S n));
  ret ("uuid-" +:+ pretty n).

Fixpoint uuids {A} (l : list A) : M (list string) :=
  match l with
  | [] => ret []
  | _ :: l' => do i <- uuid4; do rest <- uuids l'; ret (i :: rest)
  end.

Definition add_documents (chunks : list Doc) : M Z :=
  match chunks with
  | [] => ret 0
  | _ =>
      let texts := map text chunks in
      let metadatas := map metadata chunks in
      do ids <- uuids chunks;
      do embeddings <- embedder.embed_texts texts;
      do collection <- get_vector_store;
      run try_except
            (collection_add collection ids texts metadatas embeddings)
            (fun _ => raise (VectorDbError "Vector DB error"));
      ret (Z.of_nat (length chunks))
  end.

Definition clear_vector_store : M unit :=
  run modify (set_COLLECTION None);
  run modify (set_CLIENT None);
  let path := chroma_db_path settings in
  try_except
    (do there <- ext (EvPathExists (Path.as_posix path))
                   (get (fun w => bool_decide (is_Some (chroma_dir w))));
     run (if there : bool
          then ext (EvRmtree (Path.as_posix path)) (modify (set_chroma_dir None))
          else ret tt);
     config.ensure_directories)
    (fun _ => raise (VectorDbError "Vector DB error")).

(** Truthiness of a metadata value. *)
Definition truthy (v : pyval) : bool :=
  match v with
  | PyNone => false
  | PyStr s => Str.nonempty s
  | PyInt z => negb (z =? 0)
  | PyBool b => b
  end.

(** [stats[key] = stats.get(key, 0) + 1] on a dictionary that keeps its
    insertion order. *)
Fixpoint bump (key : string * option string)
    (stats : list (string * option string * Z))
  : list (string * option string * Z) :=
  match stats with
  | [] => [(key, 1)]
  | (k, n) :: stats' =>
      if bool_decide (k = key) then (k, n + 1) :: stats'
      else (k, n) :: bump key stats'
  end.

Record FileSummary := mkFileSummary {
  fs_source_file : string;
  fs_file_type : option string;
  fs_num_chunks : Z
}.

Definition list_indexed_files : M (list FileSummary) :=
  do collection <- get_vector_store;
  do result <-
    try_except
      (do ms <- collection_get collection; ret (Some ms))
      (fun _ => ret None);
  match result with
  | None => ret []
  | Some metadatas =>
      let stats :=
        fold_left
          (fun stats (meta : option (gmap string pyval)) =>
             match meta with
             | None => stats
             | Some meta =>
                 if bool_decide (meta = ∅) then stats
                 else
                   let source := dict_get meta "source_file" in
                   let ftype := dict_get meta "file_type" in
                   if negb (truthy source) then stats
                   else
                     let key :=
                       (py_str source,
                        match ftype with PyStr s => Some s | _ => None end) in
                     bump key stats
             end)
          metadatas [] in
      ret (map (fun '(source, ftype, num_chunks) =>
                  mkFileSummary source ftype num_chunks) stats)
  end.

Definition count_chunks : M Z :=
  do collection <- get_vector_store;
  try_except (collection_count collection) (fun _ => ret 0).

Definition query_similar (query_text : string) (top_k : Z) : M QueryResult :=
  do collection <- get_vector_store;
  try_except
    (collection_query collection query_text top_k)
    (fun _ => raise (VectorDbError "Vector DB error")).

End chroma_store.
End chroma_store.

(** ** app/health.py (the checks the generation client relies on) *)

Module health.
Section health.
Context `{E : Env}.

Definition HealthResult : Type := bool * option string.

Definition requests_get (url : string) : M Response :=
  ext (EvHttpGet url) (ret (http_get url)).

(** [resp.raise_for_status()] *)
Definition raise_for_status (resp : Response) : M unit :=
  if (400 <=? resp_status resp) && (resp_status resp <? 600)
  then raise (OtherException "requests.exceptions.HTTPError"
                (Str.of_Z (resp_status resp) +:+ " Error"))
  else ret tt.

(** [resp.json()] *)
Definition json (resp : Response) : M jsonval :=
  match resp_json resp with
  | Some data => ret data
  | None => raise (OtherException "json.JSONDecodeError" "Expecting value")
  end.

(** [{m.get("name") for m in items}]: the names in the order of the
    items; the first item without [get], or with a name that cannot be
    hashed, ends the comprehension. *)
Fixpoint names (items : list jsonval) : exn + list jsonval :=
  match items with
  | [] => inr []
  | m :: rest =>
      match Json.get m "name" JNull with
      | inl exc => inl exc
      | inr name =>
          if Json.hashable name
          then match names rest with
               | inl exc => inl exc
               | inr found => inr (name :: found)
               end
          else inl (Json.unhashable name)
      end
  end.

(** [{m.get("name") for m in data.get("models", [])}] *)
Definition model_names (data : jsonval) : exn + list jsonval :=
  match Json.get data "models" (JList []) with
  | inl exc => inl exc
  | inr listed =>
      match Json.iter listed with
      | inl exc => inl exc
      | inr items => names items
      end
  end.

Definition check_ollama_running : M HealthResult :=
  let url := Str.rstrip_slash (ollama_base_url settings) +:+ "/" in
  try_except
    (do resp <- requests_get url;
     if (200 <=? resp_status resp) && (resp_status resp <? 500)
     then ret (true, Some "reachable")
     else ret (false,
               Some ("Ollama responded with HTTP " +:+
                     Str.of_Z (resp_status resp))))
    (fun _ => ret (false, Some "Ollama not running")).

Definition _fetch_ollama_tags : M jsonval :=
  let url := Str.rstrip_slash (ollama_base_url settings) +:+ "/api/tags" in
  do resp <- requests_get url;
  run raise_for_status resp;
  json resp.

Definition check_ollama_model_present : M HealthResult :=
  try_except
    (do '(ok, msg) <- check_ollama_running;
     if negb ok then ret (false, msg)
     else
       do data <- _fetch_ollama_tags;
       do models <- lift (model_names data);
       if existsb (Json.eq_str (ollama_model settings)) models
       then ret (true, Some (ollama_model settings))
       else ret (false,
                 Some ("LLM model not found in Ollama. Please run: ollama pull "
                       +:+ ollama_model settings)))
    (fun exc =>
       ret (false, Some ("Could not verify model in Ollama: " +:+ exn_str exc))).

End health.
End health.

(** ** app/llm/ollama_llm.py *)

Module ollama_llm.
Section ollama_llm.
Context `{E : Env}.

Definition _build_prompt (context question : string)
    (history : option (list (gmap string string))) : string :=
  let history := default [] history in
  let history_text :=
    match history with
    | [] => ""
    | _ =>
        let conv_lines :=
          fold_left
            (fun conv_lines item =>
               let role := default "user" (item !! "role") in
               let content := default "" (item !! "content") in
               conv_lines ++ [str_upper role +:+ ": " +:+ content])
            (skipn (length history - 10) history) [] in
        Str.join nl conv_lines
    end in
  let prompt :=
    "You are a helpful assistant for a personal knowledge organizer." +:+ nl
    +:+ "You must answer **only** based on the provided context." +:+ nl
    +:+ "If the answer cannot be found in the context, reply explicitly that "
    +:+ dquote +:+ "the answer is not found in the provided documents."
    +:+ dquote +:+ "." +:+ nl +:+ nl in
  let prompt :=
    if Str.nonempty history_text
    then prompt +:+ "Conversation history:" +:+ nl +:+ history_text
                +:+ nl +:+ nl
    else prompt in
  let prompt := prompt +:+ "Context:" +:+ nl in
  let prompt := prompt +:+ context in
  let prompt := prompt +:+ nl +:+ nl +:+ "Question:" +:+ nl in
  let prompt := prompt +:+ question in
  let prompt := prompt +:+ nl +:+ nl +:+ "Answer:" in
  prompt.

Definition requests_post (url prompt : string) : M Response :=
  ext (EvHttpPost url) (ret (http_post url prompt)).

(** The declared result is [str]; what is returned is a string or
    whatever value the body of the response holds. *)
Definition generate_answer (base_url : string) (context question : string)
    (history : option (list (gmap string string))) : M jsonval :=
  do '(ok, msg) <- health.check_ollama_model_present;
  if negb ok then
    if bool_decide (msg = Some "Ollama not running")
    then raise (OllamaUnavailable (default "" msg))
    else if match msg with
            | Some m => Str.nonempty m
                        && Str.startswith "LLM model not found in Ollama" m
            | None => false
            end
    then raise (OllamaModelMissing (default "" msg))
    else raise (OllamaRequestFailed
                  (opt_str_or msg "Failed to validate Ollama model"))
  else
    let url := base_url +:+ "/api/generate" in
    let prompt := _build_prompt context question history in
    do resp <-
      try_except (requests_post url prompt)
        (fun exc =>
           match exc with
           | RequestsTimeout _ =>
               raise (OllamaRequestFailed "Ollama request timed out")
           | _ =>
               raise (OllamaUnavailable
                        ("Ollama request failed: " +:+ exn_str exc))
           end);
    if negb (resp_status resp =? 200)
    then raise (OllamaRequestFailed
                  ("Ollama error " +:+ Str.of_Z (resp_status resp) +:+ ": "
                   +:+ resp_text resp))
    else
      match resp_json resp with
      | None => ret (JStr (resp_text resp))
      | Some data =>
          do response <- lift (Json.get data "response" JNull);
          if Json.truthy response then ret response
          else
            do text <- lift (Json.get data "text" JNull);
            if Json.truthy text then ret text else ret (JStr "")
      end.

End ollama_llm.
End ollama_llm.

(** ** app/llm/hf_llm.py *)

Module hf_llm.
Section hf_llm.
Context `{E : Env}.

(** [HuggingFaceClient(cfg)]: tokenizer and model are loaded at
    construction. *)
Definition init : M LLMClient :=
  run ext (EvHfLoad (hf_model_name settings)) (ret tt);
  let device := if gpu_available settings then "cuda" else "cpu" in
  ret (HuggingFaceClient device).

Definition _build_prompt (context question : string)
    (history : option (list (gmap string string))) : string :=
  let history := default [] history in
  let history_text :=
    match history with
    | [] => ""
    | _ =>
        let conv_lines :=
          fold_left
            (fun conv_lines item =>
               let role := default "user" (item !! "role") in
               let content := default "" (item !! "content") in
               conv_lines ++ [str_upper role +:+ ": " +:+ content])
            (skipn (length history - 10) history) [] in
        Str.join nl conv_lines
    end in
  let prompt :=
    "You are a helpful assistant for a personal knowledge organizer." +:+ nl
    +:+ "You must answer **only** based on the provided context." +:+ nl
    +:+ "If the answer cannot be found in the context, reply explicitly that "
    +:+ dquote +:+ "the answer is not found in the provided documents."
    +:+ dquote +:+ "." +:+ nl +:+ nl in
  let prompt :=
    if Str.nonempty history_text
    then prompt +:+ "Conversation history:" +:+ nl +:+ history_text
                +:+ nl +:+ nl
    else prompt in
  let prompt := prompt +:+ "Context:" +:+ nl in
  let prompt := prompt +:+ context in
  let prompt := prompt +:+ nl +:+ nl +:+ "Question:" +:+ nl in
  let prompt := prompt +:+ question in
  let prompt := prompt +:+ nl +:+ nl +:+ "Answer:" in
  prompt.

Definition generate_answer (context question : string)
    (history : option (list (gmap string string))) : M string :=
  let prompt := _build_prompt context question history in
  do generated <- ext EvHfGenerate (ret (hf_generate prompt));
  ret (Str.strip generated).

End hf_llm.
End hf_llm.

(** ** app/llm/llm_interface.py *)

Module llm_interface.
Section llm_interface.
Context `{E : Env}.

Definition get_llm_client : M LLMClient :=
  do cur <- get _LLM_CLIENT;
  match cur with
  | Some client => ret client
  | None =>
      do client <-
        match llm_provider settings with
        | ollama =>
            ret (OllamaClient (Str.rstrip_slash (ollama_base_url settings)))
        | hf => hf_llm.init
        end;
      run modify (set_LLM_CLIENT (Some client));
      ret client
  end.

(** [llm.generate_answer(context=..., question=..., history=...)] *)
Definition generate_answer (llm : LLMClient) (context question : string)
    (history : option (list (gmap string string))) : M jsonval :=
  match llm with
  | OllamaClient base_url =>
      ollama_llm.generate_answer base_url context question history
  | HuggingFaceClient _ =>
      do generated <- hf_llm.generate_answer context question history;
      ret (JStr generated)
  end.

End llm_interface.
End llm_interface.

(** ** app/rag/pipeline.py *)

Module pipeline.
Section pipeline.
Context `{E : Env}.

Record Source := mkSource {
  source_file : pyval;
  chunk_index : pyval;
  file_type : pyval;
  score : option pyfloat
}.

Record AnswerResult := mkAnswer { answer : string; sources : list Source }.

(** [zip(a, b, c)] *)
Fixpoint zip3 {A B C} (a : list A) (b : list B) (c : list C)
  : list (A * B * C) :=
  match a, b, c with
  | x :: a', y :: b', z :: c' => (x, y, z) :: zip3 a' b' c'
  | _, _, _ => []
  end.

(** [results.get(key) or [[]]] *)
Definition rows_or {A} (v : option (list (list A))) : list (list A) :=
  match v with
  | None | Some [] => [[]]
  | Some rows => rows
  end.

Definition _format_context_and_sources (results : QueryResult)
  : string * list Source :=
  let documents := rows_or (documents results) in
  let metadatas := rows_or (metadatas results) in
  let distances := rows_or (distances results) in
  let '(context_lines, sources) :=
    fold_left
      (fun acc '(docs_row, metas_row, dists_row) =>
         fold_left
           (fun '(context_lines, sources) '(doc, meta, dist) =>
              let meta : gmap string pyval := default ∅ meta in
              let source_file := dict_get meta "source_file" in
              let chunk_index := dict_get meta "chunk_index" in
              let file_type := dict_get meta "file_type" in
              (context_lines ++
                 ["[source=" +:+ py_str source_file +:+ " chunk=" +:+
                  py_str chunk_index +:+ "] " +:+ doc],
               sources ++ [mkSource source_file chunk_index file_type dist]))
           (zip3 docs_row metas_row dists_row) acc)
      (zip3 documents metadatas distances) ([], []) in
  let context := Str.join (nl +:+ nl) context_lines in
  (context, sources).

Definition answer_question (question : string)
    (history : option (list (gmap string string))) : M AnswerResult :=
  do retrieval <- chroma_store.query_similar question (top_k settings);
  let '(context, sources) := _format_context_and_sources retrieval in
  if negb (Str.nonempty (Str.strip context))
  then ret (mkAnswer "The answer is not found in the provided documents." [])
  else
    do llm <- llm_interface.get_llm_client;
    do answer <- llm_interface.generate_answer llm context question history;
    do answer <- lift (Json.strip answer);
    ret (mkAnswer answer sources).

End pipeline.
End pipeline.

(** ** app/models/schemas.py (the models of the [/query] handler) *)

Module schemas.

Inductive Role := user | assistant.

Record ChatHistoryItem := mkChatHistoryItem {
  role : Role;
  content : string
}.

Record QueryRequest := mkQueryRequest {
  question : string;
  history : option (list ChatHistoryItem)
}.

Record Source := mkSource {
  source_file : option string;
  file_type : option string;
  chunk_index : option Z;
  score : option pyfloat
}.

Record QueryResponse := mkQueryResponse {
  answer : string;
  sources : list Source
}.

(** [h.dict()] *)
Definition dict (h : ChatHistoryItem) : gmap string string :=
  <["content" := content h]>
    (<["role" := match role h with
                 | user => "user"
                 | assistant => "assistant"
                 end]> ∅).

End schemas.

(** ** app/main.py: the [/ingest] handler *)

Module main.
Section main.
Context `{E : Env}.

Record UploadFile := mkUpload {
  up_filename : option string;
  up_content : string
}.

Record IngestFileResult := mkIngestFileResult {
  filename : string;
  file_type : option string;
  chunks_added : Z;
  error : option string
}.

Record IngestResponse := mkIngestResponse {
  results : list IngestFileResult;
  total_chunks : Z
}.

(** [await up.read()] *)
Definition read (up : UploadFile) : M string :=
  ext (EvUploadRead (default "" (up_filename up))) (ret (up_content up)).

(** [save_path.write_bytes(content)]; [filename] is the component that
    was joined to the uploads directory. *)
Definition write_bytes (save_path : Path.t) (filename content : string)
  : M unit :=
  ext (EvWriteBytes (Path.as_posix save_path))
    (if String.eqb filename "" || String.eqb filename "."
        || String.eqb filename ".."
     then raise (OtherException "IsADirectoryError" (Path.as_posix save_path))
     else modify (fun w =>
                    set_files (<[Path.as_posix save_path := content]> (files w))
                              w)).

(** [detect_file_type(Path(filename)) or None] *)
Definition ftype_of (filename : string) : option string :=
  match loader.detect_file_type (Path.of_name filename) with
  | Some t => if Str.nonempty t then Some t else None
  | None => None
  end.

(** The [file_type] field of the response model is an optional string. *)
Definition as_opt_str (v : pyval) : option string :=
  match v with PyStr s => Some s | _ => None end.

(** The loop state of [ingest]: [results] and [total_chunks]. *)
Definition Acc : Type := list IngestFileResult * Z.

(** The [try] block of the loop body. *)
Definition ingest_try (up : UploadFile) (filename : string)
    (save_path : Path.t) (acc : Acc) : M Acc :=
  let '(results, total_chunks) := acc in
  do content <- read up;
  run write_bytes save_path filename content;
  do docs <- loader.load_file save_path;
  let chunks := chunker.chunk_documents docs in
  do added <- chroma_store.add_documents chunks;
  let total_chunks := total_chunks + added in
  let file_type :=
    match docs with
    | [] => None
    | d :: _ => as_opt_str (dict_get (metadata d) "file_type")
    end in
  ret (results ++ [mkIngestFileResult filename file_type added None],
       total_chunks).

(** The [except] clauses of the loop body, in their order. *)
Definition ingest_except (filename : string) (acc : Acc) (exc : exn) : M Acc :=
  let '(results, total_chunks) := acc in
  let ftype := ftype_of filename in
  match exc with
  | TesseractError _ =>
      ret (results ++
             [mkIngestFileResult filename ftype 0
                (Some (str_or (exn_str exc) "Tesseract not installed"))],
           total_chunks)
  | EmbeddingModelError _ =>
      ret (results ++
             [mkIngestFileResult filename ftype 0
                (Some "Embedding model missing")],
           total_chunks)
  | VectorDbError _ =>
      ret (results ++
             [mkIngestFileResult filename ftype 0 (Some "Vector DB error")],
           total_chunks)
  | _ =>
      ret (results ++
             [mkIngestFileResult filename ftype 0 (Some (exn_str exc))],
           total_chunks)
  end.

(** [filename = os.path.basename(up.filename or "unknown")] *)
Definition upload_name (up : UploadFile) : string :=
  basename (opt_str_or (up_filename up) "unknown").

(** The body of [for up in files]. *)
Definition ingest_step (up : UploadFile) (acc : Acc) : M Acc :=
  let filename := upload_name up in
  let save_path := Path.div (uploads_path settings) filename in
  try_except (ingest_try up filename save_path acc)
             (ingest_except filename acc).

Definition ingest (files : list UploadFile) : M IngestResponse :=
  match files with
  | [] => raise (HTTPException 400 "No files uploaded.")
  | _ =>
      do '(results, total_chunks) <- for_each files ingest_step ([], 0);
      ret (mkIngestResponse results total_chunks)
  end.

(** *** The [/query] handler *)

(** What the response model makes of the source dictionaries: the
    validated sources, or the validation error of [pydantic]. *)
Variable validate_sources : list pipeline.Source -> exn + list schemas.Source.

Definition query (req : schemas.QueryRequest) : M schemas.QueryResponse :=
  do rag_result <-
    try_except
      (pipeline.answer_question (schemas.question req)
         (Some (map schemas.dict (default [] (schemas.history req)))))
      (fun exc =>
         match exc with
         | OllamaUnavailable _ =>
             raise (HTTPException 503 "Ollama not running")
         | OllamaModelMissing _ =>
             raise (HTTPException 503
                      ("Model not found: " +:+ ollama_model settings))
         | EmbeddingModelError _ =>
             raise (HTTPException 500 "Embedding model missing")
         | VectorDbError _ => raise (HTTPException 500 "Vector DB error")
         | OllamaRequestFailed _ => raise (HTTPException 502 (exn_str exc))
         | _ => raise (HTTPException 500 "RAG pipeline failed.")
         end);
  match validate_sources (pipeline.sources rag_result) with
  | inl exc => raise exc
  | inr sources =>
      ret (schemas.mkQueryResponse (pipeline.answer rag_result) sources)
  end.

End main.
End main.

(** ** A concrete environment and concrete worlds

    Used to run the code on examples. *)

Module demo.

Definition root : Path.t := Path.mk true ["srv"; "pko"; "backend"; "data"].

Definition demo_settings : Settings := {|
  uploads_path := Path.div root "uploads";
  chroma_db_path := Path.div root "chroma_db";
  chunk_size := 800;
  chunk_overlap := 200;
  embedding_model_name := "sentence-transformers/all-MiniLM-L6-v2";
  llm_provider := ollama;
  ollama_base_url := "http://127.0.0.1:11434";
  ollama_model := "llama3.1:8b";
  ollama_temperature := Float 0;
  ollama_max_tokens := 512;
  ollama_timeout_seconds := 60;
  health_timeout_seconds := 5;
  ocr_timeout_seconds := 30;
  hf_model_name := "gpt2";
  hf_temperature := Float 0;
  hf_max_new_tokens := 512;
  top_k := 6;
  gpu_available := false
|}.

(** A splitter that cuts at every line feed and drops empty pieces. *)
Fixpoint split_lines (cur : string) (s : string) : list string :=
  match s with
  | EmptyString => if Str.nonempty cur then [cur] else []
  | String c s' =>
      if Ascii.eqb c "010"
      then (if Str.nonempty cur then [cur] else []) ++ split_lines "" s'
      else split_lines (cur +:+ String c "") s'
  end.

(** A search that rejects a non-positive [n_results], as [chromadb] does,
    and otherwise answers with the first [n_results] records. *)
Definition demo_search (rs : list StoredRecord) (q : string) (n : Z)
  : exn + QueryResult :=
  if n <=? 0
  then inl (ValueError
              ("Number of requested results " +:+ Str.of_Z n +:+
               ", cannot be negative, or zero."))
  else
    let hits := firstn (Z.to_nat n) rs in
    inr (mkQueryResult
           (Some [map rec_text hits])
           (Some [map (fun r => Some (rec_meta r)) hits])
           (Some [map (fun _ => Some (Float 0)) hits])).

(** Upper-casing of the letters [a]-[z], which is [str.upper] on the
    ASCII strings of the demonstrations. *)
Definition ascii_upper : string -> string :=
  Str.map_chars
    (fun c =>
       let n := nat_of_ascii c in
       if ((97 <=? n) && (n <=? 122))%nat then ascii_of_nat (n - 32) else c).

(** A history of one turn. *)
Definition hello : gmap string string :=
  {[ "role" := "user"; "content" := "hello" ]}.

(** The answers of a running service that has the configured model. *)
Definition quoted (s : string) : string := dquote +:+ s +:+ dquote.

Definition running_response : Response :=
  mkResponse 200 "Ollama is running" None.

Definition tags_response : Response :=
  mkResponse 200
    ("{" +:+ quoted "models" +:+ ":[{" +:+ quoted "name" +:+ ":"
     +:+ quoted "llama3.1:8b" +:+ "}]}")
    (Some (JObject
             {[ "models" := JList [JObject {[ "name" := JStr "llama3.1:8b" ]}] ]})).

Definition generate_response : Response :=
  mkResponse 200
    ("{" +:+ quoted "response" +:+ ":" +:+ quoted " Paris. " +:+ "}")
    (Some (JObject {[ "response" := JStr " Paris. " ]})).

Definition demo_get (tags : Response) (url : string) : Response :=
  if String.eqb url "http://127.0.0.1:11434/api/tags" then tags
  else running_response.

Definition demo_env : Env := {|
  settings := demo_settings;
  cwd := ["srv"; "pko"];
  decode_utf8_ignore := fun b => b;
  pdf_reader := fun _ => mkPdf false [];
  pytesseract_present := true;
  image_to_string := fun _ => None;
  split_text := fun _ _ s => split_lines "" s;
  encode := map (fun _ => [Float 0]);
  search := demo_search;
  http_get := demo_get tags_response;
  http_post := fun _ _ => generate_response;
  hf_generate := fun _ => " Paris. ";
  str_upper := ascii_upper
|}.

(** A fresh process on a machine without data directories. *)
Definition world0 : World := {|
  _EMBEDDER := None;
  _CLIENT := None;
  _COLLECTION := None;
  _LLM_CLIENT := None;
  chroma_dir := None;
  uploads_dir := false;
  files := ∅;
  uuid_next := 0;
  faults := [];
  trace := []
|}.

(** The same process when the two availability requests of the remote
    generation client go through and its generation request raises
    [exc]. *)
Definition world_post_raises (exc : exn) : World :=
  set_faults [None; None; Some exc] world0.

Definition connection_reset : exn :=
  OtherException "requests.exceptions.ConnectionError" "connection reset".

(** The process after one upload of a two-line text file was saved. *)
Definition a_txt : Path.t := Path.div (uploads_path demo_settings) "a.txt".

Definition world_a_txt : World :=
  set_files {[ "/srv/pko/backend/data/uploads/a.txt" := "alpha" +:+ nl +:+ "beta" ]}
            world0.

Definition a_txt_docs : list Doc :=
  [mkDoc ("alpha" +:+ nl +:+ "beta")
         (<["file_type" := PyStr "txt"]>
            (<["source_file" := PyStr "/srv/pko/backend/data/uploads/a.txt"]> ∅))].

(** The process after a batch with that file was ingested: two records
    are stored and the store handles are cached. *)
Definition world_indexed : World :=
  snd (main.ingest (E := demo_env)
         [main.mkUpload (Some "a.txt") ("alpha" +:+ nl +:+ "beta")] world0).

(** An upload without text, and a batch whose second file has an
    unknown extension. *)
Definition blank_md : main.UploadFile := main.mkUpload (Some "dir/c.md") "  ".

Definition batch : list main.UploadFile :=
  [main.mkUpload (Some "a.txt") ("alpha" +:+ nl +:+ "beta");
   main.mkUpload (Some "b.docx") "PK";
   blank_md].


Definition world_ocr_timeout : World :=
  set_faults [Some FuturesTimeout]
    (set_files {[ "/srv/pko/backend/data/uploads/scan.png" := "PNG" ]} world0).

Definition report_pdf : Path.t :=
  Path.div (uploads_path demo_settings) "report.PDF".

(** A process that is refused the creation of its data directories. *)
Definition permission_denied : exn :=
  OtherException "PermissionError" "[Errno 13] Permission denied".

Definition world_readonly : World := set_faults [Some permission_denied] world0.

(** The answer to a question asked of that process. *)
Definition indexed_answer : pipeline.AnswerResult :=
  match fst (pipeline.answer_question (E := demo_env) "Which capital?" None
               world_indexed) with
  | Ok r => r
  | Raise _ => pipeline.mkAnswer "" []
  end.


Definition world_refused : World := set_faults [Some connection_reset] world0.



(** The indexed process when the four file-system calls of a clear and
    the two of the next opening go through, and the client then cannot
    open its database. *)
Definition database_unavailable : exn :=
  OtherException "sqlite3.OperationalError" "unable to open database file".


(** An upload whose file name ends in a parent reference. *)
Definition up_dotdot : main.UploadFile := main.mkUpload (Some "a/..") "x".

Definition slides_pptx : main.UploadFile :=
  main.mkUpload (Some "talks/slides.pptx") "PK".

(** A validation that accepts strings and integers where the response
    model expects them. *)
Definition validate (l : list pipeline.Source) : exn + list schemas.Source :=
  inr (map (fun s =>
              schemas.mkSource
                (main.as_opt_str (pipeline.source_file s))
                (main.as_opt_str (pipeline.file_type s))
                match pipeline.chunk_index s with
                | PyInt z => Some z
                | _ => None
                end
                (pipeline.score s)) l).

Definition notes_docx : Path.t := Path.div (uploads_path demo_settings) "notes.docx".

End demo.

(** ** Vocabulary of the statements *)

(** Calls to the generation backend: the HTTP requests of the remote
    variant, loading and running the in-process model. *)
Definition is_llm_event (ev : Event) : bool :=
  match ev with
  | EvHttpGet _ | EvHttpPost _ | EvHfLoad _ | EvHfGenerate => true
  | _ => false
  end.

Definition llm_calls (w : World) : list Event :=
  List.filter is_llm_event (trace w).

(** [m] keeps the relation [I] between the world it starts in and the
    world it ends in, whatever its outcome. *)
Definition keeps {A} (I : World -> World -> Prop) (m : M A) : Prop :=
  forall w, I w (snd (m w)).

(** Nothing happened to the generation backend between [w] and [w']. *)
Definition llm_untouched (w w' : World) : Prop :=
  llm_calls w' = llm_calls w /\ _LLM_CLIENT w' = _LLM_CLIENT w.

(** The suffixes [detect_file_type] knows, compared in lower case. *)
Definition recognized_suffixes : list string :=
  [".txt"; ".md"; ".pdf"; ".png"; ".jpg"; ".jpeg"].

(** [isinstance(e, OllamaRequestFailed)] *)
Definition is_request_failed (e : exn) : bool :=
  match e with OllamaRequestFailed _ => true | _ => false end.

(** *** The prompt of the generation backends *)

(** The instruction block: answer only from the supplied context, and say
    so when the answer is not in it. *)
Definition instruction_block : string :=
  "You are a helpful assistant for a personal knowledge organizer." +:+ nl
  +:+ "You must answer **only** based on the provided context." +:+ nl
  +:+ "If the answer cannot be found in the context, reply explicitly that "
  +:+ dquote +:+ "the answer is not found in the provided documents."
  +:+ dquote +:+ "." +:+ nl +:+ nl.

(** The most recent [n] entries of a history. *)
Definition last_items {A} (n : nat) (l : list A) : list A :=
  skipn (length l - n) l.

(** One history item as a [ROLE: content] line, the role in upper
    case. *)
Definition render_item `{E : Env} (item : gmap string string) : string :=
  str_upper (default "user" (item !! "role")) +:+ ": "
  +:+ default "" (item !! "content").

(** The history section: absent without history, else a heading and the
    last 10 items, one per line. *)
Definition history_block `{E : Env}
    (history : option (list (gmap string string))) : string :=
  match default [] history with
  | [] => ""
  | items =>
      "Conversation history:" +:+ nl
      +:+ Str.join nl (map render_item (last_items 10 items)) +:+ nl +:+ nl
  end.

(** The sections of the prompt in their order: the instruction block,
    the history section, the context, the question and the cue. *)
Definition prompt_layout `{E : Env} (context question : string)
    (history : option (list (gmap string string))) : string :=
  instruction_block +:+ history_block history
  +:+ "Context:" +:+ nl +:+ context
  +:+ nl +:+ nl +:+ "Question:" +:+ nl +:+ question
  +:+ nl +:+ nl +:+ "Answer:".

(** The reading of the specification, where the history lines prefix the
    instruction block: the prompt begins with the rendered history. *)
Definition history_prefixed `{E : Env}
    (history : option (list (gmap string string))) (prompt : string) : bool :=
  String.prefix
    (Str.join nl (map render_item (last_items 10 (default [] history))))
    prompt.

(** *** Chunks *)

(** The pieces [l] of one document as chunks numbered from [i], over the
    document's metadata [base]. *)
Fixpoint numbered (base : gmap string pyval) (i : Z) (l : list string)
  : list Doc :=
  match l with
  | [] => []
  | t :: l' =>
      mkDoc t (<["chunk_index" := PyInt i]> base) :: numbered base (i + 1) l'
  end.

Definition chunk_index_of (c : Doc) : option pyval :=
  metadata c !! "chunk_index".

Definition source_file_of (c : Doc) : option pyval :=
  metadata c !! "source_file".

(** *** Ingestion results *)

(** The file's pipeline succeeded: its record has no error. *)
Definition succeeded (r : main.IngestFileResult) : bool :=
  match main.error r with None => true | Some _ => false end.

Definition sum_chunks (rs : list main.IngestFileResult) : Z :=
  fold_right (fun r n => main.chunks_added r + n) 0 rs.

(** The trace of [w'] continues the trace of [w]. *)
Definition trace_extends (w w' : World) : Prop :=
  exists evs, trace w' = trace w ++ evs.

(** *** Trimmed text *)

(** [s] begins or ends with a whitespace character. *)
Definition surrounded_by_space (s : string) : bool :=
  match list_ascii_of_string s with
  | c :: _ => Str.isspace c
  | [] => false
  end
  || match rev (list_ascii_of_string s) with
     | c :: _ => Str.isspace c
     | [] => false
     end.

(** The values [detect_file_type] can return. *)
Definition file_types : list string := ["txt"; "md"; "pdf"; "image"].


(** The number of chunks one document gives. *)
Definition chunk_count `{E : Env} (d : Doc) : nat :=
  if Str.nonempty (Str.strip (text d))
  then length (chunker.get_text_splitter (text d))
  else 0%nat.

(** *** File summaries *)

(** What [list_indexed_files] groups by. *)
Definition summary_key (f : chroma_store.FileSummary) : string * option string :=
  (chroma_store.fs_source_file f, chroma_store.fs_file_type f).

Definition summary_total (l : list chroma_store.FileSummary) : Z :=
  fold_right (fun f n => chroma_store.fs_num_chunks f + n) 0 l.

Definition stats_total (stats : list (string * option string * Z)) : Z :=
  fold_right (fun '(_, n) m => n + m) 0 stats.

(** *** The remote generation service *)

(** The three error kinds of the remote generation client. *)
Definition is_ollama_error (e : exn) : bool :=
  match e with
  | OllamaUnavailable _ | OllamaModelMissing _ | OllamaRequestFailed _ => true
  | _ => false
  end.

(** The two addresses the availability check asks. *)
Definition root_url `{E : Env} : string :=
  Str.rstrip_slash (ollama_base_url settings) +:+ "/".

Definition tags_url `{E : Env} : string :=
  Str.rstrip_slash (ollama_base_url settings) +:+ "/api/tags".

(** The world after a call that left the process without failing. *)
Definition next_world (ev : Event) (w : World) : World :=
  set_faults (tl (faults w)) (log_event ev w).

(** [s] contains the path separator. *)
Definition has_slash (s : string) : bool :=
  existsb (Ascii.eqb "/") (list_ascii_of_string s).

(** The client sent no file name, or an empty one. *)
Definition up_filename_absent (up : main.UploadFile) : bool :=
  match main.up_filename up with
  | None | Some "" => true
  | Some _ => false
  end.

(** The statuses the [/query] handler answers failures with. *)
Definition query_failure_statuses : list Z := [500; 502; 503].

(** * Properties *)

(** ** Running the monad *)

Lemma bind_Ok {A B} (m : M A) (k : A -> M B) w a w' :
  m w = (Ok a, w') -> bind m k w = k a w'.
Proof. intros H. unfold bind. now rewrite H. Qed.

Lemma bind_Raise {A B} (m : M A) (k : A -> M B) w e w' :
  m w = (Raise e, w') -> bind m k w = (Raise e, w').
Proof. intros H. unfold bind. now rewrite H. Qed.

Lemma try_Ok {A} (m : M A) h w a w' :
  m w = (Ok a, w') -> try_except m h w = (Ok a, w').
Proof. intros H. unfold try_except. now rewrite H. Qed.

Lemma try_Raise {A} (m : M A) h w e w' :
  m w = (Raise e, w') -> try_except m h w = h e w'.
Proof. intros H. unfold try_except. now rewrite H. Qed.

Section Frame.
Variable I : World -> World -> Prop.
Hypothesis I_refl : forall w, I w w.
Hypothesis I_trans : forall a b c, I a b -> I b c -> I a c.
Hypothesis I_log : forall fs w, I w (set_faults fs w).

Lemma keeps_ret {A} (a : A) : keeps I (ret a).
Proof. intros w. apply I_refl. Qed.

Lemma keeps_raise {A} e : keeps I (@raise A e).
Proof. intros w. apply I_refl. Qed.

Lemma keeps_get {A} (f : World -> A) : keeps I (get f).
Proof. intros w. apply I_refl. Qed.

Lemma keeps_modify f : (forall w, I w (f w)) -> keeps I (modify f).
Proof. intros H w. apply H. Qed.

Lemma keeps_bind {A B} (m : M A) (k : A -> M B) :
  keeps I m -> (forall a, keeps I (k a)) -> keeps I (bind m k).
Proof.
  intros Hm Hk w. unfold bind. specialize (Hm w).
  destruct (m w) as [[a|e] w1]; simpl in *; [|assumption].
  eapply I_trans; [eassumption|]. apply Hk.
Qed.

Lemma keeps_try {A} (m : M A) h :
  keeps I m -> (forall e, keeps I (h e)) -> keeps I (try_except m h).
Proof.
  intros Hm Hh w. unfold try_except. specialize (Hm w).
  destruct (m w) as [[a|e] w1]; simpl in *; [assumption|].
  eapply I_trans; [eassumption|]. apply Hh.
Qed.

Lemma keeps_ext {A} ev (act : M A) :
  (forall w, I w (log_event ev w)) -> keeps I act -> keeps I (ext ev act).
Proof.
  intros Hev Hact w. unfold ext.
  destruct (faults (log_event ev w)) as [|[e|] fs] eqn:Hf; simpl.
  - eapply I_trans; [apply Hev|]. apply Hact.
  - eapply I_trans; [apply Hev|]. apply I_log.
  - eapply I_trans; [apply Hev|].
    eapply I_trans; [apply I_log|]. apply Hact.
Qed.

End Frame.

Lemma llm_untouched_refl w : llm_untouched w w.
Proof. now split. Qed.

Lemma llm_untouched_trans a b c :
  llm_untouched a b -> llm_untouched b c -> llm_untouched a c.
Proof. intros [H1 H2] [H3 H4]. split; congruence. Qed.

Lemma llm_untouched_faults fs w : llm_untouched w (set_faults fs w).
Proof. now split. Qed.

Lemma llm_untouched_log ev w :
  is_llm_event ev = false -> llm_untouched w (log_event ev w).
Proof.
  intros H. split; [|reflexivity].
  unfold llm_calls, log_event; simpl. rewrite List.filter_app. simpl.
  rewrite H. apply app_nil_r.
Qed.

(** Steps of a proof that a computation leaves the generation backend
    alone. *)
Ltac quiet_step :=
  first
    [ apply keeps_ret; apply llm_untouched_refl
    | apply keeps_raise; apply llm_untouched_refl
    | apply keeps_get; apply llm_untouched_refl
    | apply keeps_modify;
      let w' := fresh "w" in
      intros w'; try destruct (chroma_dir w'); now split
    | apply keeps_bind;
      [apply llm_untouched_trans | | intros ?]
    | apply keeps_try;
      [apply llm_untouched_trans | | intros ?]
    | apply keeps_ext;
      [ apply llm_untouched_trans
      | apply llm_untouched_faults
      | intros ?; now apply llm_untouched_log | ]
    | match goal with
      | |- keeps _ (match ?x with _ => _ end) => destruct x
      end ].

Ltac quiet := repeat quiet_step.

Section Quiet.
Context `{E : Env}.

Lemma quiet_ensure_directories : keeps llm_untouched config.ensure_directories.
Proof. unfold config.ensure_directories. quiet. Qed.

Lemma quiet_get_client : keeps llm_untouched chroma_store._get_client.
Proof.
  unfold chroma_store._get_client, chroma_store.chromadb_PersistentClient.
  quiet.
Qed.

Lemma quiet_get_vector_store : keeps llm_untouched chroma_store.get_vector_store.
Proof.
  unfold chroma_store.get_vector_store,
    chroma_store.client_get_or_create_collection, chroma_store.store_gone.
  quiet.
Qed.

Lemma quiet_query_similar q k :
  keeps llm_untouched (chroma_store.query_similar q k).
Proof.
  unfold chroma_store.query_similar, chroma_store.collection_query,
    chroma_store.store_gone.
  quiet.
Qed.

End Quiet.

(** ** The retrieval-augmented pipeline *)

(** C2. When retrieval returns and the context assembled from it is the
    empty string, [answer_question] returns the fixed answer with no
    sources, and it stops in the world retrieval left: the generation
    client is neither created nor asked, and no call to the generation
    backend is in the trace that was not there before. *)
Theorem answer_question_empty_context `{E : Env}
    (question : string) (history : option (list (gmap string string)))
    (w w1 : World) (retrieval : QueryResult) :
  chroma_store.query_similar question (top_k settings) w = (Ok retrieval, w1) ->
  fst (pipeline._format_context_and_sources retrieval) = "" ->
  pipeline.answer_question question history w
  = (Ok (pipeline.mkAnswer
           "The answer is not found in the provided documents." []), w1)
  /\ llm_untouched w w1.
Proof.
  intros Hq Hctx. split.
  - unfold pipeline.answer_question. rewrite (bind_Ok _ _ _ _ _ Hq).
    destruct (pipeline._format_context_and_sources retrieval) as [context srcs].
    simpl in Hctx. subst context. reflexivity.
  - pose proof (quiet_query_similar question (top_k settings) w) as H.
    now rewrite Hq in H.
Qed.

Lemma answer_question_empty_context_witness :
  let E := demo.demo_env in
  let w1 := snd (chroma_store.query_similar "Where is it?" 6 demo.world0) in
  pipeline.answer_question "Where is it?" None demo.world0
  = (Ok (pipeline.mkAnswer
           "The answer is not found in the provided documents." []), w1)
  /\ llm_untouched demo.world0 w1.
Proof.
  intros E w1.
  apply (answer_question_empty_context (E := E) "Where is it?" None
           demo.world0 w1
           (mkQueryResult (Some [[]]) (Some [[]]) (Some [[]]))).
  - vm_compute. reflexivity.
  - vm_compute. reflexivity.
Defined.

(** ** The document normalizer on unknown extensions *)

Lemma detect_file_type_unknown (path : Path.t) :
  ~ In (Str.lower (Path.suffix path)) recognized_suffixes ->
  loader.detect_file_type path = None.
Proof.
  intros H. unfold loader.detect_file_type.
  set (s := Str.lower (Path.suffix path)) in *.
  simpl in H.
  repeat match goal with
         | |- context [String.eqb s ?c] =>
             replace (String.eqb s c) with false
               by (symmetry; apply String.eqb_neq; intros ->; tauto)
         end.
  reflexivity.
Qed.

(** C9, as the code has it.  For a path whose suffix is none of [.txt],
    [.md], [.pdf], [.png], [.jpg], [.jpeg] (in any case), [load_file]
    raises the built-in [ValueError] with the message
    ["Unsupported file type for <resolved path>"], before it touches the
    file; that exception is not a [BackendError]. *)
Theorem load_file_unknown_suffix_raises_ValueError `{E : Env}
    (path : Path.t) (w : World) :
  ~ In (Str.lower (Path.suffix (Path.resolve cwd path))) recognized_suffixes ->
  loader.load_file path w
  = (Raise (ValueError ("Unsupported file type for " +:+
                        Path.as_posix (Path.resolve cwd path))), w)
  /\ is_backend_error
       (ValueError ("Unsupported file type for " +:+
                    Path.as_posix (Path.resolve cwd path))) = false.
Proof.
  intros H. split; [|reflexivity].
  unfold loader.load_file. now rewrite (detect_file_type_unknown _ H).
Qed.

Lemma load_file_unknown_suffix_raises_ValueError_witness :
  let E := demo.demo_env in
  loader.load_file demo.notes_docx demo.world0
  = (Raise (ValueError
       "Unsupported file type for /srv/pko/backend/data/uploads/notes.docx"),
     demo.world0)
  /\ is_backend_error
       (ValueError
          "Unsupported file type for /srv/pko/backend/data/uploads/notes.docx")
     = false.
Proof.
  intros E.
  apply (load_file_unknown_suffix_raises_ValueError (E := E)
           demo.notes_docx demo.world0).
  vm_compute. intuition discriminate.
Defined.

(** C9, as the specification words it, fails: on [notes.docx] the
    normalizer raises an exception of no typed backend kind. *)
Lemma load_file_unknown_suffix_not_typed :
  let E := demo.demo_env in
  ~ In (Str.lower (Path.suffix (Path.resolve cwd demo.notes_docx)))
       recognized_suffixes
  /\ ~ exists e w',
        loader.load_file demo.notes_docx demo.world0 = (Raise e, w')
        /\ is_backend_error e = true.
Proof.
  intros E. split.
  - vm_compute. intuition discriminate.
  - intros (e & w' & Hrun & Hkind).
    vm_compute in Hrun. inversion Hrun; subst e. discriminate Hkind.
Qed.

(** ** The remote generation client when its request fails *)

(** C3, as the code has it.  Once the availability check has passed, a
    generation request that times out raises [OllamaRequestFailed]
    with the message ["Ollama request timed out"], and a request that
    fails in any other way raises [OllamaUnavailable] with the message
    ["Ollama request failed: <cause>"]: the two differ in kind. *)
Theorem generate_answer_request_raises `{E : Env}
    (base_url context question : string)
    (history : option (list (gmap string string)))
    (w w1 w2 : World) (msg : option string) (exc : exn) :
  health.check_ollama_model_present w = (Ok (true, msg), w1) ->
  ollama_llm.requests_post (base_url +:+ "/api/generate")
    (ollama_llm._build_prompt context question history) w1 = (Raise exc, w2) ->
  ollama_llm.generate_answer base_url context question history w
  = (Raise match exc with
           | RequestsTimeout _ => OllamaRequestFailed "Ollama request timed out"
           | _ => OllamaUnavailable ("Ollama request failed: " +:+ exn_str exc)
           end, w2).
Proof.
  intros Hcheck Hpost. unfold ollama_llm.generate_answer.
  rewrite (bind_Ok _ _ _ _ _ Hcheck). cbn [negb].
  unfold bind at 1. rewrite (try_Raise _ _ _ _ _ Hpost).
  destruct exc; reflexivity.
Qed.

Lemma generate_answer_request_raises_witness :
  let E := demo.demo_env in
  let w := demo.world_post_raises demo.connection_reset in
  let w1 := snd (health.check_ollama_model_present w) in
  let w2 := snd (ollama_llm.requests_post
                   "http://127.0.0.1:11434/api/generate"
                   (ollama_llm._build_prompt "ctx" "q" None) w1) in
  ollama_llm.generate_answer "http://127.0.0.1:11434" "ctx" "q" None w
  = (Raise (OllamaUnavailable "Ollama request failed: connection reset"), w2).
Proof.
  intros E w w1 w2.
  apply (generate_answer_request_raises (E := E) "http://127.0.0.1:11434"
           "ctx" "q" None w w1 w2 (Some "llama3.1:8b") demo.connection_reset).
  - vm_compute. reflexivity.
  - vm_compute. reflexivity.
Defined.

(** C3, as the specification words it, fails: with the remote service
    checked and present, a reset connection on the generation request
    raises [OllamaUnavailable], whereas a timeout raises
    [OllamaRequestFailed]. *)
Lemma transport_failure_not_request_failed :
  let E := demo.demo_env in
  fst (ollama_llm.generate_answer "http://127.0.0.1:11434" "ctx" "q" None
         (demo.world_post_raises (RequestsTimeout "read timed out")))
  = Raise (OllamaRequestFailed "Ollama request timed out")
  /\ fst (ollama_llm.generate_answer "http://127.0.0.1:11434" "ctx" "q" None
            (demo.world_post_raises demo.connection_reset))
     = Raise (OllamaUnavailable "Ollama request failed: connection reset")
  /\ ~ exists e w',
        ollama_llm.generate_answer "http://127.0.0.1:11434" "ctx" "q" None
          (demo.world_post_raises demo.connection_reset) = (Raise e, w')
        /\ is_request_failed e = true.
Proof.
  intros E. split; [|split].
  - vm_compute. reflexivity.
  - vm_compute. reflexivity.
  - intros (e & w' & Hrun & Hkind).
    vm_compute in Hrun. inversion Hrun; subst e. discriminate Hkind.
Qed.

(** ** Similarity queries with a non-positive [top_k] *)

(** C8, as the code has it.  [query_similar] has no guard of its own: with
    the store open, its directory holding [rs] and no transient failure on
    the call, a query with [top_k <= 0] is handed to the backend with
    [n_results = top_k]; what the backend answers is returned as it is,
    and a rejection by the backend surfaces as the typed
    [VectorDbError]. *)
Theorem query_similar_forwards_top_k `{E : Env}
    (query_text : string) (top_k : Z) (w w1 : World)
    (collection : Collection) (rs : list StoredRecord) :
  top_k <= 0 ->
  chroma_store.get_vector_store w = (Ok collection, w1) ->
  chroma_dir w1 = Some rs ->
  hd None (faults w1) = None ->
  exists w2,
    chroma_store.query_similar query_text top_k w
    = (match search rs query_text top_k with
       | inr r => Ok r
       | inl _ => Raise (VectorDbError "Vector DB error")
       end, w2)
    /\ trace w2 = trace w1 ++ [EvCollectionQuery query_text top_k].
Proof.
  intros _ Hopen Hdir Hfault.
  unfold chroma_store.query_similar. rewrite (bind_Ok _ _ _ _ _ Hopen).
  unfold try_except, chroma_store.collection_query, ext, bind, get.
  destruct w1 as [e c k l d u f n fs t]; simpl in *. subst d.
  destruct fs as [|[x|] fs]; simpl in *; try discriminate;
    destruct (search rs query_text top_k); simpl; eexists; split; reflexivity.
Qed.

Lemma query_similar_forwards_top_k_witness :
  let E := demo.demo_env in
  exists w2,
    chroma_store.query_similar "anything" 0 demo.world0
    = (Raise (VectorDbError "Vector DB error"), w2)
    /\ trace w2
       = trace (snd (chroma_store.get_vector_store demo.world0))
         ++ [EvCollectionQuery "anything" 0].
Proof.
  intros E.
  apply (query_similar_forwards_top_k (E := E) "anything" 0 demo.world0
           (snd (chroma_store.get_vector_store demo.world0))
           (mkCollection "pko_documents") []).
  - lia.
  - vm_compute. reflexivity.
  - vm_compute. reflexivity.
  - vm_compute. reflexivity.
Defined.

(** C8, as the specification words it, fails: against a backend that
    rejects a non-positive [n_results], as [chromadb] does, a query with
    [top_k = 0] or [top_k = -1] raises instead of yielding an empty result
    set. *)
Lemma query_similar_nonpositive_top_k_raises :
  let E := demo.demo_env in
  fst (chroma_store.query_similar "anything" 0 demo.world0)
  = Raise (VectorDbError "Vector DB error")
  /\ fst (chroma_store.query_similar "anything" (-1) demo.world0)
     = Raise (VectorDbError "Vector DB error")
  /\ ~ exists r w',
        chroma_store.query_similar "anything" 0 demo.world0 = (Ok r, w').
Proof.
  intros E. split; [|split].
  - vm_compute. reflexivity.
  - vm_compute. reflexivity.
  - intros (r & w' & Hrun). vm_compute in Hrun. discriminate Hrun.
Qed.

(** ** The prompt of the two generation backends *)

Lemma fold_left_snoc_map {A B} (f : A -> B) (l : list A) (acc : list B) :
  fold_left (fun acc x => acc ++ [f x]) l acc = acc ++ map f l.
Proof.
  revert acc. induction l as [|x l IH]; intros acc; simpl.
  - now rewrite app_nil_r.
  - rewrite IH. now rewrite <- app_assoc.
Qed.

Lemma append_assoc (s t u : string) : (s +:+ t) +:+ u = s +:+ t +:+ u.
Proof.
  induction s as [|c s IH]; [reflexivity|].
  change (String c ((s +:+ t) +:+ u) = String c (s +:+ t +:+ u)).
  now rewrite IH.
Qed.

Lemma last_items_length {A} (n : nat) (l : list A) :
  (length (last_items n l) <= n)%nat.
Proof. unfold last_items. rewrite length_skipn. lia. Qed.

Lemma last_items_suffix {A} (n : nat) (l : list A) :
  exists older, l = older ++ last_items n l.
Proof.
  exists (firstn (length l - n) l). unfold last_items.
  symmetry. apply firstn_skipn.
Qed.

Lemma last_items_nonempty {A} (n : nat) (x : A) (l : list A) :
  last_items (S n) (x :: l) <> [].
Proof.
  intros H. apply (f_equal (@length A)) in H.
  unfold last_items in H. rewrite length_skipn in H. simpl in H. lia.
Qed.

Lemma nonempty_append_r (s t : string) :
  Str.nonempty t = true -> Str.nonempty (s +:+ t) = true.
Proof. intros H. destruct s; [assumption|reflexivity]. Qed.

Lemma nonempty_append_l (s t : string) :
  Str.nonempty s = true -> Str.nonempty (s +:+ t) = true.
Proof. intros H. destruct s; [discriminate|reflexivity]. Qed.

Lemma render_item_nonempty `{E : Env} item :
  Str.nonempty (render_item item) = true.
Proof. unfold render_item. now apply nonempty_append_r. Qed.

Lemma join_nonempty sep (x : string) (l : list string) :
  Str.nonempty x = true -> Str.nonempty (Str.join sep (x :: l)) = true.
Proof.
  intros H. unfold Str.join. simpl. destruct l; [assumption|].
  now apply nonempty_append_l.
Qed.

Lemma history_text_nonempty `{E : Env} (x : gmap string string) l :
  Str.nonempty (Str.join nl (map render_item (last_items 10 (x :: l)))) = true.
Proof.
  pose proof (last_items_nonempty 9 x l) as H.
  destruct (last_items 10 (x :: l)) as [|y ys]; [congruence|].
  simpl map. apply join_nonempty, render_item_nonempty.
Qed.

Lemma ollama_prompt_layout `{E : Env} context question history :
  ollama_llm._build_prompt context question history
  = prompt_layout context question history.
Proof.
  unfold ollama_llm._build_prompt, prompt_layout, history_block.
  fold instruction_block.
  destruct (default [] history) as [|x l] eqn:Hh.
  - cbn [Str.nonempty]. repeat rewrite append_assoc. reflexivity.
  - rewrite fold_left_snoc_map. cbn [app]. fold (render_item).
    change (skipn (length (x :: l) - 10) (x :: l))
      with (last_items 10 (x :: l)).
    change (map _ (last_items 10 (x :: l)))
      with (map render_item (last_items 10 (x :: l))).
    rewrite history_text_nonempty.
    repeat rewrite append_assoc. reflexivity.
Qed.

(** C4, as the code has it.  For every context, question and history the
    two backends build the same prompt, character for character: the
    instruction block first, then (only when there is history) a section
    headed ["Conversation history:"] with the most recent items, at most
    10 of them, as [ROLE: content] lines with the role in upper case, then
    the context under ["Context:"], the question under ["Question:"] and
    the final ["Answer:"] cue. *)
Theorem build_prompt_backends_agree `{E : Env}
    (context question : string)
    (history : option (list (gmap string string))) :
  ollama_llm._build_prompt context question history
  = hf_llm._build_prompt context question history
  /\ ollama_llm._build_prompt context question history
     = prompt_layout context question history
  /\ (length (last_items 10 (default [] history)) <= 10)%nat
  /\ exists older, default [] history
                   = older ++ last_items 10 (default [] history).
Proof.
  split; [reflexivity|]. split; [apply ollama_prompt_layout|].
  split; [apply last_items_length | apply last_items_suffix].
Qed.

(** C4, as the specification words it, fails: the history does not
    prefix the instruction block.  With one turn of history neither
    backend's prompt begins with the line [USER: hello]; the instruction
    block comes first and the history follows it under its heading. *)
Lemma build_prompt_history_follows_instructions :
  let E := demo.demo_env in
  let history := Some [demo.hello] in
  Str.join nl (map render_item (last_items 10 [demo.hello])) = "USER: hello"
  /\ history_prefixed history (ollama_llm._build_prompt "ctx" "q" history)
     = false
  /\ history_prefixed history (hf_llm._build_prompt "ctx" "q" history)
     = false
  /\ ollama_llm._build_prompt "ctx" "q" history
     = instruction_block +:+ "Conversation history:" +:+ nl
       +:+ "USER: hello" +:+ nl +:+ nl
       +:+ "Context:" +:+ nl +:+ "ctx" +:+ nl +:+ nl
       +:+ "Question:" +:+ nl +:+ "q" +:+ nl +:+ nl +:+ "Answer:".
Proof.
  intros E history. repeat split; vm_compute; reflexivity.
Qed.

(** ** The chunker *)

Section Chunks.
Context `{E : Env}.

Lemma inner_loop_numbered base (l : list string) (i : Z) (acc : list Doc) :
  fold_left
    (fun chunks '(idx, chunk_text) =>
       chunks ++ [mkDoc chunk_text (<["chunk_index" := PyInt idx]> base)])
    (chunker.enumerate_from i l) acc
  = acc ++ numbered base i l.
Proof.
  revert i acc. induction l as [|t l IH]; intros i acc; simpl.
  - now rewrite app_nil_r.
  - rewrite IH. now rewrite <- app_assoc.
Qed.

(** The chunks of one document. *)
Lemma chunk_documents_one (d : Doc) :
  chunker.chunk_documents [d]
  = if Str.nonempty (Str.strip (text d))
    then numbered (metadata d) 0 (chunker.get_text_splitter (text d))
    else [].
Proof.
  unfold chunker.chunk_documents. cbn [fold_left].
  destruct (Str.nonempty (Str.strip (text d))); cbn [negb]; [|reflexivity].
  unfold chunker.enumerate. now rewrite inner_loop_numbered.
Qed.

Lemma outer_loop_app (ds : list Doc) (acc : list Doc) :
  fold_left
    (fun chunks doc =>
       let text := text doc in
       let base_meta := metadata doc in
       if negb (Str.nonempty (Str.strip text)) then chunks
       else
         let split_texts := chunker.get_text_splitter text in
         fold_left
           (fun chunks '(idx, chunk_text) =>
              let metadata := <["chunk_index" := PyInt idx]> base_meta in
              chunks ++ [mkDoc chunk_text metadata])
           (chunker.enumerate split_texts) chunks)
    ds acc
  = acc ++ concat (map (fun d => chunker.chunk_documents [d]) ds).
Proof.
  revert acc. induction ds as [|d ds IH]; intros acc.
  - simpl. now rewrite app_nil_r.
  - cbn [fold_left map concat]. rewrite IH, chunk_documents_one.
    cbv zeta.
    destruct (Str.nonempty (Str.strip (text d))); cbn [negb].
    + unfold chunker.enumerate. rewrite inner_loop_numbered.
      now rewrite <- app_assoc.
    + reflexivity.
Qed.

(** Chunks come document by document, in document order. *)
Lemma chunk_documents_concat (ds : list Doc) :
  chunker.chunk_documents ds
  = concat (map (fun d => chunker.chunk_documents [d]) ds).
Proof. unfold chunker.chunk_documents at 1. apply outer_loop_app. Qed.

Lemma numbered_length base i l : length (numbered base i l) = length l.
Proof. revert i. induction l; intros i; simpl; [reflexivity|now rewrite IHl]. Qed.

Lemma numbered_indices base (l : list string) (i : Z) :
  map chunk_index_of (numbered base i l)
  = map (fun k => Some (PyInt (i + Z.of_nat k))) (seq 0 (length l)).
Proof.
  revert i. induction l as [|t l IH]; intros i; [reflexivity|].
  cbn [numbered map length seq]. f_equal.
  - unfold chunk_index_of. cbn [metadata].
    rewrite lookup_insert_eq. now rewrite Z.add_0_r.
  - rewrite IH, <- seq_shift, map_map. apply map_ext. intros k.
    do 2 f_equal. lia.
Qed.

Lemma numbered_source_file base (l : list string) (i : Z) (c : Doc) :
  In c (numbered base i l) -> source_file_of c = base !! "source_file".
Proof.
  revert i. induction l as [|t l IH]; intros i; simpl; [tauto|].
  intros [<-|H]; [|now apply (IH (i + 1))].
  unfold source_file_of. cbn [metadata]. now rewrite lookup_insert_ne.
Qed.

End Chunks.

(** What the normalizer returns when it returns: no document, or one
    document whose metadata names the resolved path. *)
Lemma load_file_docs `{E : Env} (path : Path.t) (w w' : World) (docs : list Doc) :
  loader.load_file path w = (Ok docs, w') ->
  docs = []
  \/ exists text ftype,
       docs = [mkDoc text
                 (<["file_type" := PyStr ftype]>
                    (<["source_file" :=
                         PyStr (Path.as_posix (Path.resolve cwd path))]> ∅))].
Proof.
  unfold loader.load_file.
  destruct (loader.detect_file_type (Path.resolve cwd path)) as [ftype|];
    [|discriminate].
  unfold bind.
  match goal with
  | |- context [?m w] => destruct (m w) as [[t|e] w1]
  end; [|discriminate].
  destruct (Str.nonempty (Str.strip t)); cbn [negb]; intros H;
    inversion H; subst; eauto.
Qed.

Lemma resolved_posix_nonempty (cwd : list string) (path : Path.t) :
  Path.as_posix (Path.resolve cwd path) <> "".
Proof. unfold Path.as_posix, Path.resolve. simpl. discriminate. Qed.

(** C5. For the documents the normalizer returns, every chunk the chunker
    makes of them carries the [source_file] of its document, a non-empty
    string.  For any list of documents, chunks come document by document
    in document order; within one document [chunk_index] runs through
    0, 1, 2, ... in order; every chunk keeps its document's
    [source_file]; and a document whose text is only whitespace gives no
    chunk. *)
Theorem chunk_documents_metadata `{E : Env}
    (path : Path.t) (w w' : World) (docs : list Doc) :
  loader.load_file path w = (Ok docs, w') ->
  (forall c, In c (chunker.chunk_documents docs) ->
     exists d s, In d docs
                 /\ source_file_of d = Some (PyStr s)
                 /\ source_file_of c = Some (PyStr s)
                 /\ s <> "")
  /\ (forall ds : list Doc,
        chunker.chunk_documents ds
        = concat (map (fun d => chunker.chunk_documents [d]) ds))
  /\ (forall d : Doc,
        map chunk_index_of (chunker.chunk_documents [d])
        = map (fun k => Some (PyInt (Z.of_nat k)))
              (seq 0 (length (chunker.chunk_documents [d]))))
  /\ (forall d c : Doc,
        In c (chunker.chunk_documents [d]) ->
        source_file_of c = source_file_of d)
  /\ (forall d : Doc,
        Str.strip (text d) = "" -> chunker.chunk_documents [d] = []).
Proof.
  intros Hload.
  assert (Hsrc : forall d c : Doc,
             In c (chunker.chunk_documents [d]) ->
             source_file_of c = source_file_of d).
  { intros d c. rewrite chunk_documents_one.
    destruct (Str.nonempty (Str.strip (text d))); [|intros []].
    apply numbered_source_file. }
  split; [|split; [|split; [|split]]].
  - intros c Hc.
    destruct (load_file_docs _ _ _ _ Hload) as [->|(t & ftype & ->)].
    + destruct Hc.
    + eexists _, _. split; [now left|].
      rewrite (Hsrc _ _ Hc). unfold source_file_of. cbn [metadata].
      rewrite lookup_insert_ne by discriminate. rewrite lookup_insert_eq.
      split; [reflexivity|]. split; [reflexivity|].
      apply resolved_posix_nonempty.
  - apply chunk_documents_concat.
  - intros d. rewrite chunk_documents_one.
    destruct (Str.nonempty (Str.strip (text d))); [|reflexivity].
    rewrite numbered_indices, numbered_length. reflexivity.
  - exact Hsrc.
  - intros d Hblank. rewrite chunk_documents_one, Hblank. reflexivity.
Qed.

Lemma chunk_documents_metadata_witness :
  let E := demo.demo_env in
  loader.load_file demo.a_txt demo.world_a_txt
  = (Ok demo.a_txt_docs, snd (loader.load_file demo.a_txt demo.world_a_txt))
  /\ map chunk_index_of (chunker.chunk_documents demo.a_txt_docs)
     = [Some (PyInt 0); Some (PyInt 1)]
  /\ forall c, In c (chunker.chunk_documents demo.a_txt_docs) ->
       exists d s, In d demo.a_txt_docs
                   /\ source_file_of d = Some (PyStr s)
                   /\ source_file_of c = Some (PyStr s)
                   /\ s <> "".
Proof.
  intros E.
  assert (H : loader.load_file demo.a_txt demo.world_a_txt
              = (Ok demo.a_txt_docs,
                 snd (loader.load_file demo.a_txt demo.world_a_txt)))
    by (vm_compute; reflexivity).
  split; [exact H|]. split; [vm_compute; reflexivity|].
  exact (proj1 (chunk_documents_metadata (E := E) demo.a_txt
                  demo.world_a_txt _ demo.a_txt_docs H)).
Defined.

(** ** Clearing the vector store *)

(** Unfolding of the monad, and case analysis on the fault schedule at
    every call that leaves the process. *)
Ltac unfold_m :=
  unfold try_except, bind, ext, modify, get, ret, raise, log_event,
    set_faults, set_chroma_dir, set_uploads_dir, set_CLIENT, set_COLLECTION
    in *.

Ltac split_faults :=
  repeat (simpl;
          match goal with
          | |- context [match ?l with [] => _ | _ :: _ => _ end] =>
              is_var l; destruct l as [|[?|] ?]
          end).

Section Clear.
Context `{E : Env}.






End Clear.




(** ** The ingestion orchestrator *)

Section Ingest.
Context `{E : Env}.

(** Case analysis on the outcome of the next computation that is run. *)
Ltac next_outcome :=
  match goal with
  | |- context [match ?m ?w with (_, _) => _ end] =>
      let a := fresh "a" in let e := fresh "e" in let w' := fresh "w" in
      destruct (m w) as [[a|e] w'] eqn:?
  end.

(** When the [try] block completes, it has appended one record without
    error and added that record's chunks to the total. *)
Lemma ingest_try_Ok up filename save_path rs total w acc' w' :
  main.ingest_try up filename save_path (rs, total) w = (Ok acc', w') ->
  exists ftype added,
    acc' = (rs ++ [main.mkIngestFileResult filename ftype added None],
            total + added).
Proof.
  unfold main.ingest_try, bind.
  repeat (next_outcome; [|discriminate]).
  unfold ret. intros H. inversion H. eauto.
Qed.

(** The [except] clauses return, appending one record with an error and
    no chunks. *)
Lemma ingest_except_Ok filename rs total exc w :
  exists msg,
    main.ingest_except filename (rs, total) exc w
    = (Ok (rs ++ [main.mkIngestFileResult filename (main.ftype_of filename)
                    0 (Some msg)], total), w).
Proof. destruct exc; simpl; eexists; reflexivity. Qed.

(** One turn of the loop never raises: it appends exactly one record, for
    this file, and accounts for its chunks. *)
Lemma ingest_step_Ok up rs total w :
  exists r w',
    main.ingest_step up (rs, total) w
    = (Ok (rs ++ [r], total + main.chunks_added r), w')
    /\ main.filename r = main.upload_name up
    /\ ((exists acc',
           main.ingest_try up (main.upload_name up)
             (Path.div (uploads_path settings) (main.upload_name up))
             (rs, total) w = (Ok acc', w')
           /\ main.error r = None)
        \/ (exists exc,
              main.ingest_try up (main.upload_name up)
                (Path.div (uploads_path settings) (main.upload_name up))
                (rs, total) w = (Raise exc, w')
              /\ main.error r <> None /\ main.chunks_added r = 0)).
Proof.
  unfold main.ingest_step, try_except.
  destruct (main.ingest_try _ _ _ _ w) as [[acc'|exc] w'] eqn:Htry.
  - destruct (ingest_try_Ok _ _ _ _ _ _ _ _ Htry) as (ft & added & ->).
    exists (main.mkIngestFileResult (main.upload_name up) ft added None), w'.
    split; [reflexivity|]. split; [reflexivity|].
    left. eauto.
  - destruct (ingest_except_Ok (main.upload_name up) rs total exc w')
      as (msg & ->).
    exists (main.mkIngestFileResult (main.upload_name up)
              (main.ftype_of (main.upload_name up)) 0 (Some msg)), w'.
    cbn [main.chunks_added]. rewrite Z.add_0_r.
    split; [reflexivity|]. split; [reflexivity|].
    right. exists exc. cbn. repeat split; congruence.
Qed.

Lemma sum_chunks_succeeded_cons r rs :
  (main.error r <> None -> main.chunks_added r = 0) ->
  sum_chunks (List.filter succeeded (r :: rs))
  = main.chunks_added r + sum_chunks (List.filter succeeded rs).
Proof.
  intros H. cbn [List.filter]. unfold succeeded at 1.
  destruct (main.error r); [|reflexivity].
  rewrite H by discriminate. reflexivity.
Qed.

(** The whole loop. *)
Lemma ingest_loop_Ok files rs total w :
  exists new w',
    for_each files main.ingest_step (rs, total) w
    = (Ok (rs ++ new, total + sum_chunks (List.filter succeeded new)), w')
    /\ map main.filename new = map main.upload_name files
    /\ Forall (fun r => main.error r <> None -> main.chunks_added r = 0) new.
Proof.
  revert rs total w. induction files as [|up files IH]; intros rs total w.
  - exists [], w. cbn. rewrite app_nil_r, Z.add_0_r. auto.
  - destruct (ingest_step_Ok up rs total w) as (r & w1 & Hstep & Hname & Hr).
    destruct (IH (rs ++ [r]) (total + main.chunks_added r) w1)
      as (new & w' & Hloop & Hnames & Hall).
    assert (Hzero : main.error r <> None -> main.chunks_added r = 0).
    { destruct Hr as [(? & _ & Hok)|(? & _ & _ & Hz)]; [congruence|auto]. }
    exists (r :: new), w'. split; [|split].
    + cbn [for_each]. rewrite (bind_Ok _ _ _ _ _ Hstep), Hloop.
      rewrite sum_chunks_succeeded_cons by exact Hzero.
      rewrite <- app_assoc, Z.add_assoc. reflexivity.
    + cbn [map]. now rewrite Hname, Hnames.
    + now constructor.
Qed.

End Ingest.

(** C1, as the code has it.  For every non-empty batch, whatever fails and
    whenever, [ingest] returns: one record per file, in the order of the
    batch and under each file's base name; a record with an error has
    [chunks_added = 0]; and [total_chunks] is the sum of [chunks_added]
    over the records without error.  Each turn of the loop, from any
    state, returns having appended exactly one record for its file to the
    records so far: without error when the file's pipeline completed, with
    an error and no chunks when it raised. *)
Theorem ingest_isolates_failures `{E : Env}
    (files : list main.UploadFile) (w : World) :
  files <> [] ->
  (exists resp w',
     main.ingest files w = (Ok resp, w')
     /\ length (main.results resp) = length files
     /\ map main.filename (main.results resp) = map main.upload_name files
     /\ Forall (fun r => main.error r <> None -> main.chunks_added r = 0)
               (main.results resp)
     /\ main.total_chunks resp
        = sum_chunks (List.filter succeeded (main.results resp)))
  /\ (forall up rs total w0,
        exists r w0',
          main.ingest_step up (rs, total) w0
          = (Ok (rs ++ [r], total + main.chunks_added r), w0')
          /\ main.filename r = main.upload_name up
          /\ ((exists acc',
                 main.ingest_try up (main.upload_name up)
                   (Path.div (uploads_path settings) (main.upload_name up))
                   (rs, total) w0 = (Ok acc', w0')
                 /\ main.error r = None)
              \/ (exists exc,
                    main.ingest_try up (main.upload_name up)
                      (Path.div (uploads_path settings) (main.upload_name up))
                      (rs, total) w0 = (Raise exc, w0')
                    /\ main.error r <> None /\ main.chunks_added r = 0))).
Proof.
  intros Hne. split; [|apply ingest_step_Ok].
  destruct files as [|up files]; [congruence|].
  destruct (ingest_loop_Ok (up :: files) [] 0 w)
    as (new & w' & Hloop & Hnames & Hall).
  exists (main.mkIngestResponse new (sum_chunks (List.filter succeeded new))), w'.
  split; [|split; [|split; [|split]]].
  - unfold main.ingest. rewrite (bind_Ok _ _ _ _ _ Hloop). reflexivity.
  - cbn [main.results]. rewrite <- (length_map main.filename), Hnames.
    apply length_map.
  - exact Hnames.
  - exact Hall.
  - reflexivity.
Qed.

Lemma ingest_isolates_failures_witness :
  let E := demo.demo_env in
  fst (main.ingest demo.batch demo.world0)
  = Ok (main.mkIngestResponse
          [main.mkIngestFileResult "a.txt" (Some "txt") 2 None;
           main.mkIngestFileResult "b.docx" None 0
             (Some "Unsupported file type for /srv/pko/backend/data/uploads/b.docx");
           main.mkIngestFileResult "c.md" None 0 None]
          2)
  /\ exists resp w',
       main.ingest demo.batch demo.world0 = (Ok resp, w')
       /\ length (main.results resp) = length demo.batch
       /\ map main.filename (main.results resp)
          = map main.upload_name demo.batch
       /\ Forall (fun r => main.error r <> None -> main.chunks_added r = 0)
                 (main.results resp)
       /\ main.total_chunks resp
          = sum_chunks (List.filter succeeded (main.results resp)).
Proof.
  intros E. split; [vm_compute; reflexivity|].
  apply (ingest_isolates_failures (E := E) demo.batch demo.world0).
  discriminate.
Defined.

(** C1, as the specification words it, fails on the empty batch: [ingest]
    does not return an empty result list, it raises HTTP 400. *)
Lemma ingest_empty_batch_raises :
  let E := demo.demo_env in
  main.ingest [] demo.world0
  = (Raise (HTTPException 400 "No files uploaded."), demo.world0)
  /\ ~ exists resp w',
        main.ingest [] demo.world0 = (Ok resp, w')
        /\ length (main.results resp) = length (@nil main.UploadFile).
Proof.
  intros E. split; [reflexivity|].
  intros (resp & w' & Hrun & _). discriminate Hrun.
Qed.

(** ** A file without text *)

Lemma normalize_last (c : string) (l acc : list string) :
  c <> ".." -> List.last (Path.normalize acc (l ++ [c])) "" = c.
Proof.
  intros Hc. revert acc. induction l as [|x l IH]; intros acc.
  - cbn [app Path.normalize].
    replace (String.eqb c "..") with false
      by (symmetry; now apply String.eqb_neq).
    cbn [Path.normalize List.rev]. apply List.last_last.
  - cbn [app Path.normalize]. destruct (String.eqb x ".."); apply IH.
Qed.

(** The resolved path of an upload saved under a proper file name ends in
    that name. *)
Lemma resolved_name (cwd : list string) (dir : Path.t) (filename : string) :
  filename <> "" -> filename <> "." -> filename <> ".." ->
  Path.name (Path.resolve cwd (Path.div dir filename)) = filename.
Proof.
  intros H1 H2 H3. unfold Path.div.
  replace (String.eqb filename "") with false
    by (symmetry; now apply String.eqb_neq).
  replace (String.eqb filename ".") with false
    by (symmetry; now apply String.eqb_neq).
  cbn [orb]. unfold Path.name, Path.resolve. cbn [Path.parts Path.absolute].
  destruct (Path.absolute dir).
  - now apply normalize_last.
  - rewrite app_assoc. now apply normalize_last.
Qed.

Lemma of_name_name (filename : string) :
  filename <> "" -> filename <> "." ->
  Path.name (Path.of_name filename) = filename.
Proof.
  intros H1 H2. unfold Path.of_name, Path.div.
  replace (String.eqb filename "") with false
    by (symmetry; now apply String.eqb_neq).
  replace (String.eqb filename ".") with false
    by (symmetry; now apply String.eqb_neq).
  reflexivity.
Qed.

(** The detected type depends on the final component only. *)
Lemma detect_file_type_name (p q : Path.t) :
  Path.name p = Path.name q ->
  loader.detect_file_type p = loader.detect_file_type q.
Proof.
  intros H. unfold loader.detect_file_type, Path.suffix. now rewrite H.
Qed.

Lemma detect_file_type_nonempty (p : Path.t) (ft : string) :
  loader.detect_file_type p = Some ft -> Str.nonempty ft = true.
Proof.
  unfold loader.detect_file_type.
  repeat match goal with
         | |- context [if ?b then _ else _] => destruct b
         end; intros H; inversion H; reflexivity.
Qed.

Section NoText.
Context `{E : Env}.

(** Saving succeeds under proper file names only. *)
Lemma write_bytes_Ok save_path filename content w w' :
  main.write_bytes save_path filename content w = (Ok tt, w') ->
  filename <> "" /\ filename <> "." /\ filename <> "..".
Proof.
  unfold main.write_bytes, ext.
  destruct (String.eqb filename "") eqn:H1;
    destruct (String.eqb filename ".") eqn:H2;
    destruct (String.eqb filename "..") eqn:H3; cbn [orb];
    try (destruct (faults (log_event _ w)) as [|[?|] ?];
         unfold raise; discriminate).
  intros _. apply String.eqb_neq in H1, H2, H3. auto.
Qed.

Lemma load_file_Ok_detect path w docs w' :
  loader.load_file path w = (Ok docs, w') ->
  exists ft, loader.detect_file_type (Path.resolve cwd path) = Some ft.
Proof.
  unfold loader.load_file.
  destruct (loader.detect_file_type (Path.resolve cwd path)); [eauto|].
  discriminate.
Qed.

End NoText.

(** C10. When an upload is read and saved, and the normalizer returns no
    document for it without raising, the turn of the loop for that file
    appends the record [{filename, file_type: null, chunks_added: 0,
    error: null}] and leaves the total as it is, and a batch of that file
    alone yields exactly that record with [total_chunks = 0].  The file
    name's extension is a recognized one all the same: the type that the
    failure paths would derive from the file name exists, and is not
    used. *)
Theorem ingest_no_text_file_type_null `{E : Env}
    (up : main.UploadFile) (content : string)
    (rs : list main.IngestFileResult) (total : Z) (w w1 w2 w3 : World) :
  main.read up w = (Ok content, w1) ->
  main.write_bytes (Path.div (uploads_path settings) (main.upload_name up))
    (main.upload_name up) content w1 = (Ok tt, w2) ->
  loader.load_file (Path.div (uploads_path settings) (main.upload_name up)) w2
  = (Ok [], w3) ->
  main.ingest_step up (rs, total) w
  = (Ok (rs ++ [main.mkIngestFileResult (main.upload_name up) None 0 None],
         total), w3)
  /\ main.ingest [up] w
     = (Ok (main.mkIngestResponse
              [main.mkIngestFileResult (main.upload_name up) None 0 None] 0),
        w3)
  /\ exists ft, main.ftype_of (main.upload_name up) = Some ft.
Proof.
  intros Hread Hwrite Hload.
  assert (Hstep : forall rs total,
             main.ingest_step up (rs, total) w
             = (Ok (rs ++ [main.mkIngestFileResult (main.upload_name up)
                             None 0 None], total), w3)).
  { intros rs' total'. unfold main.ingest_step, main.ingest_try.
    apply try_Ok.
    rewrite (bind_Ok _ _ _ _ _ Hread), (bind_Ok _ _ _ _ _ Hwrite),
      (bind_Ok _ _ _ _ _ Hload).
    cbn. now rewrite Z.add_0_r. }
  split; [apply Hstep|]. split.
  - unfold main.ingest. cbn [for_each].
    unfold bind at 1. unfold bind at 1. rewrite Hstep. reflexivity.
  - destruct (write_bytes_Ok _ _ _ _ _ Hwrite) as (H1 & H2 & H3).
    destruct (load_file_Ok_detect _ _ _ _ Hload) as (ft & Hft).
    exists ft. unfold main.ftype_of.
    rewrite (detect_file_type_name _
               (Path.resolve cwd
                  (Path.div (uploads_path settings) (main.upload_name up)))).
    + rewrite Hft. now rewrite (detect_file_type_nonempty _ _ Hft).
    + rewrite of_name_name, resolved_name; auto.
Qed.

Lemma ingest_no_text_file_type_null_witness :
  let E := demo.demo_env in
  main.ingest [demo.blank_md] demo.world0
  = (Ok (main.mkIngestResponse [main.mkIngestFileResult "c.md" None 0 None] 0),
     snd (main.ingest [demo.blank_md] demo.world0))
  /\ main.ftype_of "c.md" = Some "md".
Proof.
  intros E.
  pose (w1 := snd (main.read demo.blank_md demo.world0)).
  pose (w2 := snd (main.write_bytes
                     (Path.div (uploads_path settings) "c.md") "c.md" "  " w1)).
  pose (w3 := snd (loader.load_file
                     (Path.div (uploads_path settings) "c.md") w2)).
  destruct (ingest_no_text_file_type_null (E := E) demo.blank_md "  " [] 0
              demo.world0 w1 w2 w3) as (_ & H & _).
  - vm_compute. reflexivity.
  - vm_compute. reflexivity.
  - vm_compute. reflexivity.
  - split; [|vm_compute; reflexivity].
    rewrite H. vm_compute. reflexivity.
Defined.

(** ** Empty inputs of the embedding provider and of the vector index *)

Lemma trace_extends_refl w : trace_extends w w.
Proof. exists []. now rewrite app_nil_r. Qed.

Lemma trace_extends_trans a b c :
  trace_extends a b -> trace_extends b c -> trace_extends a c.
Proof.
  intros [e1 H1] [e2 H2]. exists (e1 ++ e2).
  now rewrite H2, H1, <- app_assoc.
Qed.

Lemma trace_extends_same w w' : trace w' = trace w -> trace_extends w w'.
Proof. intros H. exists []. now rewrite app_nil_r. Qed.

Lemma trace_extends_log ev w : trace_extends w (log_event ev w).
Proof. now exists [ev]. Qed.

(** Steps of a proof that a computation only adds to the trace. *)
Ltac grows_step :=
  first
    [ apply keeps_ret; apply trace_extends_refl
    | apply keeps_raise; apply trace_extends_refl
    | apply keeps_get; apply trace_extends_refl
    | apply keeps_modify;
      let w' := fresh "w" in
      intros w'; try destruct (chroma_dir w'); now apply trace_extends_same
    | apply keeps_bind; [apply trace_extends_trans | | intros ?]
    | apply keeps_try; [apply trace_extends_trans | | intros ?]
    | apply keeps_ext;
      [ apply trace_extends_trans
      | intros ? ?; now apply trace_extends_same
      | intros ?; apply trace_extends_log | ]
    | match goal with
      | |- keeps _ (match ?x with _ => _ end) => destruct x
      end ].

Ltac grows := repeat grows_step.

Section EmptyInputs.
Context `{E : Env}.

(** The first call that leaves the process shows in the trace, whatever
    follows. *)
Lemma bind_first_call {A B} (m : M A) (k : A -> M B) (w : World) :
  (exists ev evs, trace (snd (m w)) = trace w ++ ev :: evs) ->
  (forall a, keeps trace_extends (k a)) ->
  exists ev evs, trace (snd (bind m k w)) = trace w ++ ev :: evs.
Proof.
  intros (ev & evs & Hm) Hk. unfold bind.
  specialize (fun a => Hk a (snd (m w))).
  destruct (m w) as [[a|e] w1]; simpl in *; [|eauto].
  destruct (Hk a) as [evs' H]. exists ev, (evs ++ evs').
  rewrite H, Hm, <- app_assoc. reflexivity.
Qed.

Lemma embed_texts_calls (t : string) (ts : list string) (w : World) :
  exists ev evs,
    trace (snd (embedder.embed_texts (t :: ts) w)) = trace w ++ ev :: evs.
Proof.
  unfold embedder.embed_texts, embedder.get_embedder.
  destruct w as [e c k l d u f n fs tr]. unfold_m. unfold set_EMBEDDER.
  destruct e; destruct (gpu_available settings); split_faults; simpl;
    repeat rewrite <- app_assoc; simpl; eexists _, _; reflexivity.
Qed.

Lemma uuids_Ok {A} (l : list A) (w : World) :
  exists ids w1,
    chroma_store.uuids l w = (Ok ids, w1) /\ trace w1 = trace w.
Proof.
  revert w. induction l as [|x l IH]; intros w.
  - eexists _, _. split; reflexivity.
  - cbn [chroma_store.uuids]. unfold chroma_store.uuid4.
    unfold bind at 1. unfold bind at 1, get. unfold bind at 1, modify, ret.
    destruct (IH (set_uuid_next (S (uuid_next w)) w)) as (ids & w1 & H & Htr).
    unfold bind at 1. rewrite H. eexists _, _. split; [reflexivity|].
    exact Htr.
Qed.

Lemma add_documents_calls (c : Doc) (cs : list Doc) (w : World) :
  exists ev evs,
    trace (snd (chroma_store.add_documents (c :: cs) w)) = trace w ++ ev :: evs.
Proof.
  unfold chroma_store.add_documents.
  destruct (uuids_Ok (c :: cs) w) as (ids & w1 & Hids & Htr).
  rewrite (bind_Ok _ _ _ _ _ Hids), <- Htr.
  apply bind_first_call.
  - cbn [map]. apply embed_texts_calls.
  - intros embeddings.
    unfold chroma_store.get_vector_store, chroma_store._get_client,
      chroma_store.chromadb_PersistentClient,
      chroma_store.client_get_or_create_collection,
      chroma_store.collection_add, chroma_store.store_gone,
      config.ensure_directories.
    grows.
Qed.

End EmptyInputs.

(** C6. [embed_texts([])] returns [[]] and [add_documents([])] returns [0];
    both return normally and leave the world exactly as it was: no model is
    loaded, nothing is encoded, the store is not opened, and no call
    leaves the process (the trace and the fault schedule are untouched).
    It is the emptiness of the input that spares the collaborators: on
    any non-empty input either function makes a call that leaves the
    process, whatever its outcome. *)
Theorem empty_input_no_external_call `{E : Env} (w : World) :
  embedder.embed_texts [] w = (Ok [], w)
  /\ chroma_store.add_documents [] w = (Ok 0, w)
  /\ (forall t ts, exists ev evs,
        trace (snd (embedder.embed_texts (t :: ts) w)) = trace w ++ ev :: evs)
  /\ (forall c cs, exists ev evs,
        trace (snd (chroma_store.add_documents (c :: cs) w))
        = trace w ++ ev :: evs).
Proof.
  split; [reflexivity|]. split; [reflexivity|].
  split; [intros; apply embed_texts_calls | intros; apply add_documents_calls].
Qed.

(** * Further properties of the code *)

(** ** [str.strip] *)

Lemma drop_spaces_fixed (l : list ascii) :
  match l with c :: _ => Str.isspace c = false | [] => True end ->
  Str.drop_spaces l = l.
Proof. destruct l as [|c l]; [reflexivity|]. simpl. now intros ->. Qed.

Lemma drop_spaces_head (l : list ascii) :
  match Str.drop_spaces l with
  | c :: _ => Str.isspace c = false
  | [] => True
  end.
Proof.
  induction l as [|c l IH]; simpl; [exact I|].
  destruct (Str.isspace c) eqn:Hc; [exact IH|exact Hc].
Qed.

Lemma drop_spaces_suffix (l : list ascii) :
  exists sp, l = sp ++ Str.drop_spaces l.
Proof.
  induction l as [|c l [sp IH]]; simpl.
  - now exists [].
  - destruct (Str.isspace c).
    + exists (c :: sp). simpl. now rewrite <- IH.
    + now exists [].
Qed.

Lemma rev_suffix_head (a sp b : list ascii) :
  match a with c :: _ => Str.isspace c = false | [] => True end ->
  rev a = sp ++ b ->
  match rev b with c :: _ => Str.isspace c = false | [] => True end.
Proof.
  intros Ha H. apply (f_equal (@rev ascii)) in H.
  rewrite rev_involutive, rev_app_distr in H. subst a.
  destruct (rev b); [exact I|exact Ha].
Qed.

Lemma strip_chars (s : string) :
  list_ascii_of_string (Str.strip s)
  = rev (Str.drop_spaces
           (rev (Str.drop_spaces (list_ascii_of_string s)))).
Proof.
  unfold Str.strip, Str.rstrip, Str.lstrip.
  now rewrite !list_ascii_of_string_of_list_ascii.
Qed.

Lemma strip_chars_head (s : string) :
  match list_ascii_of_string (Str.strip s) with
  | c :: _ => Str.isspace c = false
  | [] => True
  end.
Proof.
  rewrite strip_chars.
  destruct (drop_spaces_suffix
              (rev (Str.drop_spaces (list_ascii_of_string s)))) as [sp H].
  eapply rev_suffix_head; [|exact H]. apply drop_spaces_head.
Qed.

Lemma strip_chars_last (s : string) :
  match rev (list_ascii_of_string (Str.strip s)) with
  | c :: _ => Str.isspace c = false
  | [] => True
  end.
Proof. rewrite strip_chars, rev_involutive. apply drop_spaces_head. Qed.

(** What [strip] returns neither begins nor ends with whitespace, and
    stripping it again changes nothing. *)
Lemma strip_trimmed (s : string) :
  surrounded_by_space (Str.strip s) = false
  /\ Str.strip (Str.strip s) = Str.strip s.
Proof.
  pose proof (strip_chars_head s) as Hh.
  pose proof (strip_chars_last s) as Hl.
  split.
  - unfold surrounded_by_space.
    destruct (list_ascii_of_string (Str.strip s)) as [|c l];
      destruct (rev _) as [|d r]; simpl;
      rewrite ?Hh, ?Hl; reflexivity.
  - rewrite <- (string_of_list_ascii_of_string (Str.strip (Str.strip s))).
    rewrite <- (string_of_list_ascii_of_string (Str.strip s)) at 2.
    f_equal. rewrite (strip_chars (Str.strip s)).
    rewrite (drop_spaces_fixed _ Hh), (drop_spaces_fixed _ Hl).
    apply rev_involutive.
Qed.

Lemma drop_spaces_nil_all (l : list ascii) (c : ascii) :
  Str.drop_spaces l = [] -> In c l -> Str.isspace c = true.
Proof.
  induction l as [|d l IH]; simpl; [tauto|].
  destruct (Str.isspace d) eqn:Hd; [|discriminate].
  intros H [<-|Hin]; auto.
Qed.

(** A text that begins with a character that is no whitespace does not
    strip to nothing. *)
Lemma strip_nonempty (c : ascii) (s : string) :
  Str.isspace c = false -> Str.nonempty (Str.strip (String c s)) = true.
Proof.
  intros Hc. unfold Str.strip, Str.rstrip, Str.lstrip.
  rewrite list_ascii_of_string_of_list_ascii.
  cbn [list_ascii_of_string Str.drop_spaces]. rewrite Hc.
  destruct (Str.drop_spaces (rev (c :: list_ascii_of_string s))) as [|d r] eqn:H.
  - pose proof (drop_spaces_nil_all _ c H) as Hs.
    rewrite Hs in Hc; [discriminate|]. apply in_rev. rewrite rev_involutive.
    now left.
  - destruct (rev (d :: r)) as [|x xs] eqn:Hr; [|reflexivity].
    apply (f_equal (@length ascii)) in Hr. rewrite length_rev in Hr.
    discriminate Hr.
Qed.

(** ** More on the document normalizer *)

(** X4. [detect_file_type] answers [None] exactly for the suffixes it does
    not know, compared without regard to case, and otherwise one of
    ["txt"], ["md"], ["pdf"], ["image"]. *)
Theorem detect_file_type_range (path : Path.t) :
  (loader.detect_file_type path = None
   <-> ~ In (Str.lower (Path.suffix path)) recognized_suffixes)
  /\ (forall ft, loader.detect_file_type path = Some ft -> In ft file_types).
Proof.
  split; [split|].
  - intros H Hin. unfold loader.detect_file_type in H. cbv zeta in H.
    simpl in Hin.
    destruct Hin as [Heq|[Heq|[Heq|[Heq|[Heq|[Heq|[]]]]]]];
      rewrite <- Heq in H; discriminate H.
  - apply detect_file_type_unknown.
  - intros ft. unfold loader.detect_file_type, file_types.
    repeat match goal with
           | |- context [if ?b then _ else _] => destruct b
           end; intros H; inversion H; simpl; auto.
Qed.

Section Normalizer.
Context `{E : Env}.

(** Reading a PDF never raises: whatever goes wrong ends in a text,
    possibly empty. *)
Lemma read_pdf_file_returns (path : Path.t) (w : World) :
  exists t w', loader._read_pdf_file path w = (Ok t, w').
Proof.
  unfold loader._read_pdf_file, try_except.
  match goal with
  | |- context [match ?m w with _ => _ end] => destruct (m w) as [[t|e] w']
  end; eauto.
Qed.

End Normalizer.

(** X1. Whatever [load_file] returns is the empty list or a single
    document: its text is not empty and neither begins nor ends with
    whitespace, and its metadata holds exactly [source_file], the POSIX
    form of the resolved path, and [file_type], the type detected from
    that path. *)
Theorem load_file_document_shape `{E : Env}
    (path : Path.t) (w w' : World) (docs : list Doc) :
  loader.load_file path w = (Ok docs, w') ->
  docs = []
  \/ exists t ft,
       docs = [mkDoc t
                 (<["file_type" := PyStr ft]>
                    (<["source_file" :=
                         PyStr (Path.as_posix (Path.resolve cwd path))]> ∅))]
       /\ loader.detect_file_type (Path.resolve cwd path) = Some ft
       /\ Str.nonempty t = true
       /\ surrounded_by_space t = false
       /\ Str.strip t = t.
Proof.
  unfold loader.load_file.
  destruct (loader.detect_file_type (Path.resolve cwd path)) as [ft|];
    [|discriminate].
  unfold bind.
  match goal with
  | |- context [?m w] => destruct (m w) as [[t|e] w1]
  end; [|discriminate].
  destruct (Str.nonempty (Str.strip t)) eqn:Hne; cbn [negb]; intros H;
    inversion H; subst; [right|now left].
  exists (Str.strip t), ft.
  destruct (strip_trimmed t) as [H1 H2]. auto.
Qed.

Lemma load_file_document_shape_witness :
  let E := demo.demo_env in
  demo.a_txt_docs = []
  \/ exists t ft,
       demo.a_txt_docs
       = [mkDoc t
            (<["file_type" := PyStr ft]>
               (<["source_file" :=
                    PyStr (Path.as_posix (Path.resolve cwd demo.a_txt))]> ∅))]
       /\ loader.detect_file_type (Path.resolve cwd demo.a_txt) = Some ft
       /\ Str.nonempty t = true
       /\ surrounded_by_space t = false
       /\ Str.strip t = t.
Proof.
  intros E.
  apply (load_file_document_shape (E := E) demo.a_txt demo.world_a_txt
           (snd (loader.load_file demo.a_txt demo.world_a_txt))
           demo.a_txt_docs).
  vm_compute. reflexivity.
Defined.

(** X2. A path detected as PDF never makes [load_file] raise: a missing
    file, a parser failure, a failed decryption or a page that cannot be
    extracted all end in a returned list of documents. *)
Theorem load_file_pdf_returns `{E : Env} (path : Path.t) (w : World) :
  loader.detect_file_type (Path.resolve cwd path) = Some "pdf" ->
  exists docs w', loader.load_file path w = (Ok docs, w').
Proof.
  intros Hpdf. unfold loader.load_file. rewrite Hpdf. cbn [String.eqb orb].
  change (String.eqb "pdf" "txt") with false.
  change (String.eqb "pdf" "md") with false.
  change (String.eqb "pdf" "pdf") with true. cbn [orb].
  destruct (read_pdf_file_returns (Path.resolve cwd path) w) as (t & w' & H).
  rewrite (bind_Ok _ _ _ _ _ H).
  destruct (Str.nonempty (Str.strip t)); cbn [negb]; eexists _, _; reflexivity.
Qed.

Lemma load_file_pdf_returns_witness :
  let E := demo.demo_env in
  exists docs w', loader.load_file demo.report_pdf demo.world0 = (Ok docs, w').
Proof.
  intros E.
  apply (load_file_pdf_returns (E := E) demo.report_pdf demo.world0).
  vm_compute. reflexivity.
Defined.



(** ** More on the chunker *)

Section MoreChunks.
Context `{E : Env}.

Lemma numbered_texts base (l : list string) (i : Z) :
  map text (numbered base i l) = l.
Proof.
  revert i. induction l as [|t l IH]; intros i; simpl; [reflexivity|].
  now rewrite IH.
Qed.

Lemma numbered_other_keys base (l : list string) (i : Z) (c : Doc) (k : string) :
  In c (numbered base i l) -> k <> "chunk_index" ->
  metadata c !! k = base !! k.
Proof.
  revert i. induction l as [|t l IH]; intros i; simpl; [tauto|].
  intros [<-|H] Hk; [|now apply (IH (i + 1))].
  cbn [metadata]. now rewrite lookup_insert_ne.
Qed.

Lemma chunk_documents_one_length (d : Doc) :
  length (chunker.chunk_documents [d]) = chunk_count d.
Proof.
  rewrite chunk_documents_one. unfold chunk_count.
  destruct (Str.nonempty (Str.strip (text d))); [|reflexivity].
  apply numbered_length.
Qed.

End MoreChunks.

(** X5. Chunking distributes over concatenation of document lists, so
    the chunks of a batch are the chunks of its parts in order, and the
    number of chunks is the sum, over the documents, of the number of
    pieces the splitter makes of each text that is not blank. *)
Theorem chunk_documents_app `{E : Env} (a b : list Doc) :
  chunker.chunk_documents (a ++ b)
  = chunker.chunk_documents a ++ chunker.chunk_documents b
  /\ length (chunker.chunk_documents a) = list_sum (map chunk_count a).
Proof.
  split.
  - rewrite !chunk_documents_concat, map_app. apply concat_app.
  - rewrite chunk_documents_concat.
    induction a as [|d a IH]; [reflexivity|].
    cbn [map concat list_sum]. rewrite length_app, IH.
    now rewrite chunk_documents_one_length.
Qed.

(** X6. For a document whose text is not blank, the chunk texts are the
    pieces of the splitter, in its order, and every chunk carries every
    metadata entry of the document other than [chunk_index] unchanged. *)
Theorem chunk_documents_keeps_metadata `{E : Env} (d : Doc) :
  Str.nonempty (Str.strip (text d)) = true ->
  map text (chunker.chunk_documents [d]) = chunker.get_text_splitter (text d)
  /\ forall c k,
       In c (chunker.chunk_documents [d]) -> k <> "chunk_index" ->
       metadata c !! k = metadata d !! k.
Proof.
  intros Hne. rewrite chunk_documents_one, Hne. split.
  - apply numbered_texts.
  - intros c k. apply numbered_other_keys.
Qed.

Lemma chunk_documents_keeps_metadata_witness :
  let E := demo.demo_env in
  map text (chunker.chunk_documents demo.a_txt_docs) = ["alpha"; "beta"]
  /\ forall c k,
       In c (chunker.chunk_documents demo.a_txt_docs) -> k <> "chunk_index" ->
       metadata c !! k
       = (<["file_type" := PyStr "txt"]>
            (<["source_file" := PyStr "/srv/pko/backend/data/uploads/a.txt"]>
               (∅ : gmap string pyval)))
         !! k.
Proof.
  intros E.
  destruct (chunk_documents_keeps_metadata (E := E)
              (mkDoc ("alpha" +:+ nl +:+ "beta")
                 (<["file_type" := PyStr "txt"]>
                    (<["source_file" :=
                         PyStr "/srv/pko/backend/data/uploads/a.txt"]> ∅))))
    as [H1 H2].
  - vm_compute. reflexivity.
  - split; [vm_compute; reflexivity|exact H2].
Defined.

(** ** More on the embedding provider *)

(** X8. The embedding model is a lazy singleton.  A call of
    [get_embedder] that returns leaves the model cached, and the next call
    returns that same model without any call leaving the process; a call
    that raises does so with [EmbeddingModelError], had no model cached
    before, and leaves none cached, so that the next call tries again. *)
Theorem get_embedder_singleton `{E : Env} (w : World) :
  match embedder.get_embedder w with
  | (Ok model, w1) =>
      _EMBEDDER w1 = Some model
      /\ embedder.get_embedder w1 = (Ok model, w1)
  | (Raise exc, w1) =>
      exc = EmbeddingModelError "Embedding model missing"
      /\ _EMBEDDER w = None /\ _EMBEDDER w1 = None
  end.
Proof.
  unfold embedder.get_embedder.
  destruct w as [e c k l d u f n fs tr]. unfold_m. unfold set_EMBEDDER.
  destruct e; destruct (gpu_available settings); split_faults; simpl; auto.
Qed.

(** X7. [embed_texts] raises nothing but [EmbeddingModelError] with the
    message ["Embedding model missing"], whether loading or encoding
    failed; when it returns, it returns the vectors of the model for
    exactly the texts it was given, and the model is cached. *)
Theorem embed_texts_outcome `{E : Env} (t : string) (ts : list string)
    (w : World) :
  match embedder.embed_texts (t :: ts) w with
  | (Ok embeddings, w1) =>
      embeddings = encode (t :: ts) /\ _EMBEDDER w1 <> None
  | (Raise exc, _) => exc = EmbeddingModelError "Embedding model missing"
  end.
Proof.
  unfold embedder.embed_texts, embedder.get_embedder.
  destruct w as [e c k l d u f n fs tr]. unfold_m. unfold set_EMBEDDER.
  destruct e; destruct (gpu_available settings); split_faults; simpl;
    auto; split; auto; discriminate.
Qed.

(** ** More on the vector index *)

(** X10. With no handle cached, a failure to create one of the two data
    directories escapes [get_vector_store] as it is, not as
    [VectorDbError], and [count_chunks] then raises the same exception
    instead of answering 0; a failure to open the client or the
    collection is turned into [VectorDbError].  No handle is cached after
    a failure of a directory or of the client; after a failure of the
    collection the client handle stays cached and the collection handle
    does not. *)
Theorem get_vector_store_failures `{E : Env} (w : World) :
  _CLIENT w = None -> _COLLECTION w = None ->
  (forall exc fs,
     faults w = Some exc :: fs \/ faults w = None :: Some exc :: fs ->
     exists w',
       chroma_store.get_vector_store w = (Raise exc, w')
       /\ chroma_store.count_chunks w = (Raise exc, w')
       /\ _CLIENT w' = None /\ _COLLECTION w' = None)
  /\ (forall exc fs,
        faults w = None :: None :: Some exc :: fs ->
        exists w',
          chroma_store.get_vector_store w
          = (Raise (VectorDbError "Vector DB error"), w')
          /\ _CLIENT w' = None /\ _COLLECTION w' = None)
  /\ (forall exc fs,
        faults w = None :: None :: None :: Some exc :: fs ->
        exists w',
          chroma_store.get_vector_store w
          = (Raise (VectorDbError "Vector DB error"), w')
          /\ _CLIENT w' = Some (PersistentClient chroma_store.db_path)
          /\ _COLLECTION w' = None).
Proof.
  intros Hc Hk. destruct w as [e c k l d u f n fs0 tr].
  cbn [_CLIENT _COLLECTION] in Hc, Hk. subst c k.
  split; [|split]; intros exc fs H; [destruct H as [H|H]| |];
    cbn [faults] in H; subst fs0;
    unfold chroma_store.count_chunks, chroma_store.get_vector_store,
      chroma_store._get_client, chroma_store.chromadb_PersistentClient,
      chroma_store.client_get_or_create_collection, chroma_store.store_gone,
      config.ensure_directories, chroma_store.db_path,
      chroma_store._COLLECTION_NAME;
    unfold_m; destruct d; lazy; eexists; repeat split.
Qed.

Lemma get_vector_store_failures_witness :
  let E := demo.demo_env in
  exists w',
    chroma_store.get_vector_store
      (set_faults [None; None; None; Some demo.database_unavailable]
         demo.world0)
    = (Raise (VectorDbError "Vector DB error"), w')
    /\ _CLIENT w' = Some (PersistentClient "/srv/pko/backend/data/chroma_db")
    /\ _COLLECTION w' = None.
Proof.
  intros E.
  apply (proj2 (proj2 (get_vector_store_failures (E := E)
                         (set_faults
                            [None; None; None; Some demo.database_unavailable]
                            demo.world0)
                         eq_refl eq_refl)) demo.database_unavailable []).
  reflexivity.
Defined.

(** X11. [clear_vector_store] forgets both handles whether it returns or
    raises, and it raises nothing but [VectorDbError]. *)
Theorem clear_vector_store_outcome `{E : Env} (w : World) :
  match chroma_store.clear_vector_store w with
  | (r, w1) =>
      _CLIENT w1 = None /\ _COLLECTION w1 = None
      /\ (r = Ok tt \/ r = Raise (VectorDbError "Vector DB error"))
  end.
Proof.
  unfold chroma_store.clear_vector_store, config.ensure_directories.
  destruct w as [e c k l d u f n fs tr]. unfold_m. simpl.
  destruct d; split_faults; simpl; auto.
Qed.

(** X12. With the collection handle cached, the two diagnostic reads
    never raise: [count_chunks] answers the number of records on disk, or
    0 when the read fails, and [list_indexed_files] answers a list. *)
Theorem diagnostics_degrade `{E : Env} (w : World) (collection : Collection) :
  _COLLECTION w = Some collection ->
  (exists n w',
     chroma_store.count_chunks w = (Ok n, w')
     /\ (n = 0 \/ exists rs, chroma_dir w = Some rs /\ n = Z.of_nat (length rs)))
  /\ (exists summaries w', chroma_store.list_indexed_files w = (Ok summaries, w')).
Proof.
  intros Hk. destruct w as [e c k l d u f n fs tr].
  cbn [_COLLECTION] in Hk. subst k.
  unfold chroma_store.count_chunks, chroma_store.list_indexed_files,
    chroma_store.get_vector_store, chroma_store.collection_count,
    chroma_store.collection_get, chroma_store.store_gone.
  unfold_m. split.
  - destruct d; split_faults; simpl; eexists _, _; split;
      try reflexivity; eauto.
  - destruct d; split_faults; simpl; eexists _, _; reflexivity.
Qed.

Lemma diagnostics_degrade_witness :
  let E := demo.demo_env in
  (exists n w',
     chroma_store.count_chunks demo.world_indexed = (Ok n, w')
     /\ (n = 0 \/ exists rs, chroma_dir demo.world_indexed = Some rs
                             /\ n = Z.of_nat (length rs)))
  /\ (exists summaries w',
        chroma_store.list_indexed_files demo.world_indexed
        = (Ok summaries, w')).
Proof.
  intros E.
  apply (diagnostics_degrade (E := E) demo.world_indexed
           (mkCollection "pko_documents")).
  vm_compute. reflexivity.
Defined.

(** Case analysis on the fault schedule under call-by-need evaluation,
    for computations that make several calls in a row. *)
Ltac split_faults_lazy :=
  repeat (lazy;
          match goal with
          | |- context [match ?l with [] => _ | _ :: _ => _ end] =>
              is_var l; destruct l as [|[?|] ?]
          end).

Section AddDocuments.
Context `{E : Env}.

Lemma uuids_spec {A} (l : list A) (w : World) :
  exists ids,
    chroma_store.uuids l w
    = (Ok ids, set_uuid_next (length l + uuid_next w) w)
    /\ length ids = length l.
Proof.
  revert w. induction l as [|x l IH]; intros w.
  - exists []. destruct w. split; reflexivity.
  - destruct (IH (set_uuid_next (S (uuid_next w)) w)) as (ids & H & Hlen).
    eexists (_ :: ids). split; [|simpl; now rewrite Hlen].
    cbn [chroma_store.uuids]. unfold chroma_store.uuid4.
    unfold bind at 1. unfold bind at 1, get. unfold bind at 1, modify, ret.
    unfold bind at 1. rewrite H. unfold ret. f_equal.
    destruct w. unfold set_uuid_next. cbn. f_equal. lia.
Qed.

Lemma embed_texts_frame (texts : list string) (w w1 : World)
    (embeddings : list (list pyfloat)) :
  embedder.embed_texts texts w = (Ok embeddings, w1) ->
  chroma_dir w1 = chroma_dir w /\ _COLLECTION w1 = _COLLECTION w
  /\ _CLIENT w1 = _CLIENT w.
Proof.
  destruct texts as [|t ts].
  - intros H. inversion H. auto.
  - unfold embedder.embed_texts, embedder.get_embedder.
    destruct w as [e c k l d u f n fs tr]. unfold_m. unfold set_EMBEDDER.
    destruct e; destruct (gpu_available settings); split_faults_lazy; lazy;
      intros H; inversion H; subst; auto.
Qed.

(** A store that was got is cached, and its directory is the one that
    was there, or a new empty one when none was. *)
Lemma get_vector_store_post (w w1 : World) (collection : Collection) :
  chroma_store.get_vector_store w = (Ok collection, w1) ->
  _COLLECTION w1 = Some collection
  /\ (chroma_dir w1 = chroma_dir w
      \/ chroma_dir w = None /\ chroma_dir w1 = Some []).
Proof.
  unfold chroma_store.get_vector_store, chroma_store._get_client,
    chroma_store.chromadb_PersistentClient,
    chroma_store.client_get_or_create_collection, chroma_store.store_gone,
    config.ensure_directories, chroma_store.db_path,
    chroma_store._COLLECTION_NAME.
  destruct w as [e c k l d u f n fs tr]. unfold_m.
  destruct k; destruct c; destruct d; split_faults_lazy; lazy;
    intros H; inversion H; subst; auto.
Qed.

End AddDocuments.

Section AddDocumentsPost.
Context `{E : Env}.

Lemma make_records_maps (ids texts : list string)
    (metas : list (gmap string pyval)) (embs : list (list pyfloat)) :
  length texts = length ids -> length metas = length ids ->
  length embs = length ids ->
  map rec_text (chroma_store.make_records ids texts metas embs) = texts
  /\ map rec_meta (chroma_store.make_records ids texts metas embs) = metas
  /\ length (chroma_store.make_records ids texts metas embs) = length ids.
Proof.
  revert texts metas embs.
  induction ids as [|i ids IH]; intros [|t texts] [|m metas] [|e embs];
    simpl; try discriminate; auto.
  intros H1 H2 H3.
  destruct (IH texts metas embs) as (Ht & Hm & Hl); try lia.
  now rewrite Ht, Hm, Hl.
Qed.

Lemma collection_add_post collection ids texts metas embs (w3 w' : World) :
  try_except
    (chroma_store.collection_add collection ids texts metas embs)
    (fun _ => raise (VectorDbError "Vector DB error")) w3 = (Ok tt, w') ->
  exists rs,
    chroma_dir w3 = Some rs
    /\ chroma_dir w'
       = Some (rs ++ chroma_store.make_records ids texts metas embs)
    /\ length embs = length ids
    /\ _COLLECTION w' = _COLLECTION w3.
Proof.
  unfold chroma_store.collection_add, chroma_store.store_gone.
  destruct w3 as [e c k l d u f n fs tr]. unfold_m.
  destruct (length embs =? length ids)%nat eqn:Hlen; cbn [negb];
    [apply Nat.eqb_eq in Hlen|];
    destruct d as [rs|]; destruct fs as [|[x|] fs];
    intros H; inversion H; subst; exists rs; auto.
Qed.

(** What a successful [add_documents] of a non-empty list leaves. *)
Lemma add_documents_post (c : Doc) (cs : list Doc) (w w' : World) (n : Z) :
  chroma_store.add_documents (c :: cs) w = (Ok n, w') ->
  n = Z.of_nat (length (c :: cs))
  /\ (exists new,
        chroma_dir w' = Some (default [] (chroma_dir w) ++ new)
        /\ map rec_text new = map text (c :: cs)
        /\ map rec_meta new = map metadata (c :: cs))
  /\ _COLLECTION w' <> None.
Proof.
  unfold chroma_store.add_documents.
  destruct (uuids_spec (c :: cs) w) as (ids & Hids & Hlen).
  rewrite (bind_Ok _ _ _ _ _ Hids).
  set (w1 := set_uuid_next _ w).
  unfold bind at 1.
  destruct (embedder.embed_texts _ w1) as [[embs|e] w2] eqn:Hemb;
    [|discriminate].
  unfold bind at 1.
  destruct (chroma_store.get_vector_store w2) as [[coll|e] w3] eqn:Hget;
    [|discriminate].
  unfold bind at 1.
  destruct (try_except _ _ w3) as [[[]|e] w4] eqn:Hadd; [|discriminate].
  unfold ret. intros H. inversion H; subst w4 n. clear H.
  destruct (embed_texts_frame _ _ _ _ Hemb) as (Hd2 & _ & _).
  destruct (get_vector_store_post _ _ _ Hget) as (Hk3 & Hd3).
  destruct (collection_add_post _ _ _ _ _ _ _ Hadd)
    as (rs & Hrs & Hfinal & Hel & Hk).
  assert (Hw1 : chroma_dir w1 = chroma_dir w) by (destruct w; reflexivity).
  split; [reflexivity|]. split.
  - destruct (make_records_maps ids (map text (c :: cs))
                (map metadata (c :: cs)) embs) as (Ht & Hm & _);
      rewrite ?length_map; try congruence.
    eexists. split; [|split; [exact Ht|exact Hm]].
    rewrite Hfinal. do 2 f_equal.
    rewrite <- Hw1, <- Hd2.
    destruct Hd3 as [Hsame|[Hnone Hnew]].
    + rewrite <- Hsame, Hrs. reflexivity.
    + rewrite Hnone. rewrite Hnew in Hrs. inversion Hrs. reflexivity.
  - rewrite Hk, Hk3. discriminate.
Qed.

Lemma count_chunks_cached (w : World) (rs : list StoredRecord) :
  _COLLECTION w <> None -> chroma_dir w = Some rs ->
  hd None (faults w) = None ->
  exists w', chroma_store.count_chunks w = (Ok (Z.of_nat (length rs)), w').
Proof.
  intros Hk Hd Hf. destruct w as [e c k l d u f n fs tr].
  cbn [_COLLECTION chroma_dir faults] in Hk, Hd, Hf. subst d.
  unfold chroma_store.count_chunks, chroma_store.get_vector_store,
    chroma_store.collection_count.
  unfold_m.
  destruct k; [|congruence].
  destruct fs as [|[x|] fs]; try discriminate; eexists; reflexivity.
Qed.

End AddDocumentsPost.

(** X9. When [add_documents] returns for a non-empty list of chunks, it
    returns their number, and the records on disk are those that were
    there (none, when the directory had to be created) followed by one new
    record per chunk, in the order of the chunks, with each chunk's text
    and metadata; the collection handle is cached. *)
Theorem add_documents_appends `{E : Env}
    (chunks : list Doc) (w w' : World) (n : Z) :
  chunks <> [] ->
  chroma_store.add_documents chunks w = (Ok n, w') ->
  n = Z.of_nat (length chunks)
  /\ (exists new,
        chroma_dir w' = Some (default [] (chroma_dir w) ++ new)
        /\ map rec_text new = map text chunks
        /\ map rec_meta new = map metadata chunks)
  /\ _COLLECTION w' <> None.
Proof.
  destruct chunks as [|c cs]; [congruence|]. intros _.
  apply add_documents_post.
Qed.

Lemma add_documents_appends_witness :
  let E := demo.demo_env in
  let chunks := chunker.chunk_documents demo.a_txt_docs in
  let w' := snd (chroma_store.add_documents chunks demo.world0) in
  2 = Z.of_nat (length chunks)
  /\ (exists new,
        chroma_dir w' = Some (default [] (chroma_dir demo.world0) ++ new)
        /\ map rec_text new = map text chunks
        /\ map rec_meta new = map metadata chunks)
  /\ _COLLECTION w' <> None.
Proof.
  intros E chunks w'.
  apply (add_documents_appends (E := E) chunks demo.world0 w' 2).
  - vm_compute. discriminate.
  - vm_compute. reflexivity.
Defined.

(** X14. Adding then counting: after [add_documents] returned [n] for a
    non-empty list of chunks, a [count_chunks] whose read does not fail
    answers the number of records that were on disk before plus [n]. *)
Theorem add_then_count `{E : Env}
    (chunks : list Doc) (w w' : World) (n : Z) :
  chunks <> [] ->
  chroma_store.add_documents chunks w = (Ok n, w') ->
  hd None (faults w') = None ->
  exists w'',
    chroma_store.count_chunks w'
    = (Ok (Z.of_nat (length (default [] (chroma_dir w))) + n), w'').
Proof.
  destruct chunks as [|c cs]; [congruence|]. intros _ Hadd Hf.
  destruct (add_documents_post _ _ _ _ _ Hadd)
    as (-> & (new & Hdir & Ht & _) & Hk).
  destruct (count_chunks_cached w' _ Hk Hdir Hf) as (w'' & Hc).
  exists w''. rewrite Hc. do 2 f_equal.
  rewrite length_app, Nat2Z.inj_add. f_equal. f_equal.
  rewrite <- (length_map rec_text), Ht. apply length_map.
Qed.

Lemma add_then_count_witness :
  let E := demo.demo_env in
  let chunks := chunker.chunk_documents demo.a_txt_docs in
  let w' := snd (chroma_store.add_documents chunks demo.world_indexed) in
  exists w'',
    chroma_store.count_chunks w'
    = (Ok (Z.of_nat (length (default [] (chroma_dir demo.world_indexed))) + 2),
       w'').
Proof.
  intros E chunks w'.
  apply (add_then_count (E := E) chunks demo.world_indexed w' 2).
  - vm_compute. discriminate.
  - vm_compute. reflexivity.
  - vm_compute. reflexivity.
Defined.

(** ** The per-file summaries *)

Lemma bump_keys key stats k :
  In k (map fst (chroma_store.bump key stats)) ->
  k = key \/ In k (map fst stats).
Proof.
  induction stats as [|[k0 n0] stats IH]; simpl.
  - intros [<-|[]]. now left.
  - destruct (bool_decide (k0 = key)); simpl.
    + intros [<-|H]; auto.
    + intros [<-|H]; auto. destruct (IH H); auto.
Qed.

Lemma bump_NoDup key stats :
  List.NoDup (map fst stats) ->
  List.NoDup (map fst (chroma_store.bump key stats)).
Proof.
  induction stats as [|[k0 n0] stats IH]; simpl; intros Hnd.
  - constructor; [intros []|constructor].
  - inversion Hnd as [|? ? Hnot Hrest]; subst.
    destruct (bool_decide (k0 = key)) eqn:Hk; simpl.
    + now constructor.
    + constructor; [|now apply IH].
      intros Hin. destruct (bump_keys _ _ _ Hin) as [->|H]; [|tauto].
      apply bool_decide_eq_false in Hk. congruence.
Qed.

Lemma bump_total key stats :
  stats_total (chroma_store.bump key stats) = stats_total stats + 1.
Proof.
  induction stats as [|[k0 n0] stats IH]; simpl; [reflexivity|].
  destruct (bool_decide (k0 = key)); simpl; lia.
Qed.

Lemma bump_positive key stats :
  Forall (fun '(_, n) => 1 <= n) stats ->
  Forall (fun '(_, n) => 1 <= n) (chroma_store.bump key stats).
Proof.
  induction stats as [|[k0 n0] stats IH]; simpl; intros H.
  - constructor; [lia|constructor].
  - inversion H; subst.
    destruct (bool_decide (k0 = key)); constructor; auto; lia.
Qed.

(** The tally of the loop over the stored metadata keeps its keys
    distinct and its counts positive, and counts no more than it saw. *)
Lemma tally_invariant (metadatas : list (option (gmap string pyval)))
    (stats : list (string * option string * Z)) :
  List.NoDup (map fst stats) ->
  Forall (fun '(_, n) => 1 <= n) stats ->
  let stats' :=
    fold_left
      (fun stats (meta : option (gmap string pyval)) =>
         match meta with
         | None => stats
         | Some meta =>
             if bool_decide (meta = ∅) then stats
             else
               let source := dict_get meta "source_file" in
               let ftype := dict_get meta "file_type" in
               if negb (chroma_store.truthy source) then stats
               else
                 let key :=
                   (py_str source,
                    match ftype with PyStr s => Some s | _ => None end) in
                 chroma_store.bump key stats
         end)
      metadatas stats in
  List.NoDup (map fst stats')
  /\ Forall (fun '(_, n) => 1 <= n) stats'
  /\ stats_total stats' <= stats_total stats + Z.of_nat (length metadatas).
Proof.
  revert stats. induction metadatas as [|meta ms IH]; intros stats Hnd Hpos.
  - cbv zeta. cbn [fold_left length]. split; [assumption|].
    split; [assumption|lia].
  - cbn [fold_left length]. cbv zeta.
    destruct meta as [meta|].
    + destruct (bool_decide (meta = ∅)).
      * destruct (IH stats Hnd Hpos) as (H1 & H2 & H3).
        split; [exact H1|]. split; [exact H2|]. cbv zeta in H3. lia.
      * destruct (negb (chroma_store.truthy (dict_get meta "source_file"))).
        -- destruct (IH stats Hnd Hpos) as (H1 & H2 & H3).
           split; [exact H1|]. split; [exact H2|]. cbv zeta in H3. lia.
        -- set (key := (py_str (dict_get meta "source_file"),
                        match dict_get meta "file_type" with
                        | PyStr s => Some s
                        | _ => None
                        end)).
           destruct (IH _ (bump_NoDup key _ Hnd) (bump_positive key _ Hpos))
             as (H1 & H2 & H3).
           split; [exact H1|]. split; [exact H2|].
           cbv zeta in H3. rewrite bump_total in H3. lia.
    + destruct (IH stats Hnd Hpos) as (H1 & H2 & H3).
      split; [exact H1|]. split; [exact H2|]. cbv zeta in H3. lia.
Qed.

Lemma summaries_of_stats (stats : list (string * option string * Z)) :
  map summary_key
    (map (fun '(source, ftype, num_chunks) =>
            chroma_store.mkFileSummary source ftype num_chunks) stats)
  = map fst stats
  /\ summary_total
       (map (fun '(source, ftype, num_chunks) =>
               chroma_store.mkFileSummary source ftype num_chunks) stats)
     = stats_total stats
  /\ (Forall (fun '(_, n) => 1 <= n) stats ->
      Forall (fun f => 1 <= chroma_store.fs_num_chunks f)
        (map (fun '(source, ftype, num_chunks) =>
                chroma_store.mkFileSummary source ftype num_chunks) stats)).
Proof.
  induction stats as [|[[s t] n] stats (IH1 & IH2 & IH3)].
  - split; [reflexivity|]. split; [reflexivity|]. constructor.
  - split; [|split].
    + cbn [map]. now rewrite IH1.
    + cbn [map summary_total fold_right chroma_store.fs_num_chunks].
      cbn [stats_total fold_right]. unfold summary_total in IH2.
      unfold stats_total in IH2. now rewrite IH2.
    + intros H. inversion H; subst. cbn [map]. constructor; auto.
Qed.

Section Summaries.
Context `{E : Env}.

(** What [list_indexed_files] returns is the tally of some of the stored
    metadata: of all of it, or of none when the read failed. *)
Lemma list_indexed_files_shape (w w' : World)
    (summaries : list chroma_store.FileSummary) :
  chroma_store.list_indexed_files w = (Ok summaries, w') ->
  exists metadatas : list (option (gmap string pyval)),
    summaries
    = map (fun '(source, ftype, num_chunks) =>
             chroma_store.mkFileSummary source ftype num_chunks)
        (fold_left
           (fun stats (meta : option (gmap string pyval)) =>
              match meta with
              | None => stats
              | Some meta =>
                  if bool_decide (meta = ∅) then stats
                  else
                    let source := dict_get meta "source_file" in
                    let ftype := dict_get meta "file_type" in
                    if negb (chroma_store.truthy source) then stats
                    else
                      let key :=
                        (py_str source,
                         match ftype with PyStr s => Some s | _ => None end) in
                      chroma_store.bump key stats
              end)
           metadatas [])
    /\ forall rs, chroma_dir w' = Some rs ->
                  (length metadatas <= length rs)%nat.
Proof.
  unfold chroma_store.list_indexed_files. unfold bind at 1.
  destruct (chroma_store.get_vector_store w) as [[c|e] w1]; [|discriminate].
  destruct w1 as [e0 c0 k l d u f n fs tr].
  unfold chroma_store.collection_get, chroma_store.store_gone. unfold_m.
  destruct d as [rs0|]; destruct fs as [|[x|] fs];
    cbn [faults chroma_dir]; intros H; inversion H; subst;
    first [ exists []; split; [reflexivity|]; intros; simpl; lia
          | eexists; split; [reflexivity|];
            cbn [chroma_dir]; intros rs Hrs; inversion Hrs; subst;
            rewrite length_map; lia ].
Qed.

End Summaries.

(** X13. The summaries [list_indexed_files] returns have pairwise
    distinct (source_file, file_type) keys and each counts at least one
    chunk; together they count no more chunks than there are records on
    disk. *)
Theorem list_indexed_files_summaries `{E : Env} (w w' : World)
    (summaries : list chroma_store.FileSummary) :
  chroma_store.list_indexed_files w = (Ok summaries, w') ->
  List.NoDup (map summary_key summaries)
  /\ Forall (fun f => 1 <= chroma_store.fs_num_chunks f) summaries
  /\ forall rs, chroma_dir w' = Some rs ->
                summary_total summaries <= Z.of_nat (length rs).
Proof.
  intros Hrun.
  destruct (list_indexed_files_shape _ _ _ Hrun) as (ms & -> & Hlen).
  destruct (tally_invariant ms [] ltac:(constructor) ltac:(constructor))
    as (Hnd & Hpos & Htot).
  match goal with
  | |- context [map ?f (fold_left ?g ms [])] =>
      destruct (summaries_of_stats (fold_left g ms [])) as (Hk & Ht & Hp)
  end.
  rewrite Hk, Ht. split; [exact Hnd|]. split; [exact (Hp Hpos)|].
  intros rs Hrs. specialize (Hlen rs Hrs).
  eapply Z.le_trans; [exact Htot|].
  change (stats_total []) with 0. lia.
Qed.

Lemma list_indexed_files_summaries_witness :
  let E := demo.demo_env in
  let summaries :=
    [chroma_store.mkFileSummary "/srv/pko/backend/data/uploads/a.txt"
       (Some "txt") 2] in
  let w' := snd (chroma_store.list_indexed_files demo.world_indexed) in
  List.NoDup (map summary_key summaries)
  /\ Forall (fun f => 1 <= chroma_store.fs_num_chunks f) summaries
  /\ forall rs, chroma_dir w' = Some rs ->
                summary_total summaries <= Z.of_nat (length rs).
Proof.
  intros E summaries w'.
  apply (list_indexed_files_summaries (E := E) demo.world_indexed w'
           summaries).
  vm_compute. reflexivity.
Defined.

(** ** More on the retrieval-augmented pipeline *)

Lemma join_head sep (c : ascii) (rest : string) (l : list string) :
  exists rest', Str.join sep (String c rest :: l) = String c rest'.
Proof.
  unfold Str.join. destruct l as [|y l]; eexists; reflexivity.
Qed.

(** The loop of [_format_context_and_sources] adds one source per
    context line, and every context line begins with a bracket. *)
Lemma format_rows_invariant
    (rows : list (string * option (gmap string pyval) * option pyfloat))
    (lines : list string) (srcs : list pipeline.Source) :
  length lines = length srcs ->
  Forall (fun s => exists rest, s = String "[" rest) lines ->
  let '(lines', srcs') :=
    fold_left
      (fun '(context_lines, sources) '(doc, meta, dist) =>
         let meta : gmap string pyval := default ∅ meta in
         let source_file := dict_get meta "source_file" in
         let chunk_index := dict_get meta "chunk_index" in
         let file_type := dict_get meta "file_type" in
         (context_lines ++
            ["[source=" +:+ py_str source_file +:+ " chunk=" +:+
             py_str chunk_index +:+ "] " +:+ doc],
          sources ++
            [pipeline.mkSource source_file chunk_index file_type dist]))
      rows (lines, srcs) in
  length lines' = length srcs'
  /\ Forall (fun s => exists rest, s = String "[" rest) lines'.
Proof.
  revert lines srcs.
  induction rows as [|[[doc meta] dist] rows IH]; intros lines srcs Hlen Hall.
  - cbn. auto.
  - cbn [fold_left]. apply IH.
    + rewrite !length_app. cbn. lia.
    + apply Forall_app. split; [exact Hall|].
      constructor; [|constructor]. eexists. reflexivity.
Qed.

Lemma format_invariant (results : QueryResult) :
  let '(context, sources) := pipeline._format_context_and_sources results in
  (sources = [] -> context = "")
  /\ (sources <> [] -> exists rest, context = String "[" rest).
Proof.
  unfold pipeline._format_context_and_sources.
  set (rows := pipeline.zip3 _ _ _).
  assert (H : forall lines srcs,
             length lines = length srcs ->
             Forall (fun s => exists rest, s = String "[" rest) lines ->
             let '(lines', srcs') :=
               fold_left
                 (fun acc '(docs_row, metas_row, dists_row) =>
                    fold_left
                      (fun '(context_lines, sources) '(doc, meta, dist) =>
                         let meta : gmap string pyval := default ∅ meta in
                         let source_file := dict_get meta "source_file" in
                         let chunk_index := dict_get meta "chunk_index" in
                         let file_type := dict_get meta "file_type" in
                         (context_lines ++
                            ["[source=" +:+ py_str source_file +:+ " chunk="
                             +:+ py_str chunk_index +:+ "] " +:+ doc],
                          sources ++
                            [pipeline.mkSource source_file chunk_index
                               file_type dist]))
                      (pipeline.zip3 docs_row metas_row dists_row) acc)
                 rows (lines, srcs) in
             length lines' = length srcs'
             /\ Forall (fun s => exists rest, s = String "[" rest) lines').
  { induction rows as [|[[dr mr] sr] rows IH]; intros lines srcs Hlen Hall.
    - cbn. auto.
    - cbn [fold_left].
      pose proof (format_rows_invariant (pipeline.zip3 dr mr sr) lines srcs
                    Hlen Hall) as Hrow.
      destruct (fold_left _ (pipeline.zip3 dr mr sr) (lines, srcs))
        as [lines1 srcs1].
      destruct Hrow as [Hl1 Ha1]. now apply IH. }
  specialize (H [] [] eq_refl ltac:(constructor)).
  destruct (fold_left _ rows ([], [])) as [lines srcs].
  destruct H as [Hlen Hall]. split.
  - intros ->. destruct lines; [reflexivity|discriminate].
  - intros Hne. destruct lines as [|x lines].
    + destruct srcs; [congruence|discriminate].
    + inversion Hall as [|? ? [rest ->] _]; subst. apply join_head.
Qed.

(** X15. The context that [_format_context_and_sources] assembles is
    empty, and likewise blank, exactly when the list of sources it returns
    is empty: the short-circuit of [answer_question] is taken exactly
    when retrieval brought nothing. *)
Theorem format_context_blank_iff_no_sources (results : QueryResult) :
  (fst (pipeline._format_context_and_sources results) = ""
   <-> snd (pipeline._format_context_and_sources results) = [])
  /\ (Str.nonempty
        (Str.strip (fst (pipeline._format_context_and_sources results)))
      = false
      <-> snd (pipeline._format_context_and_sources results) = []).
Proof.
  pose proof (format_invariant results) as H.
  destruct (pipeline._format_context_and_sources results) as [context srcs].
  destruct H as [H0 H1]. cbn [fst snd].
  assert (Hcases : srcs = [] \/ srcs <> [])
    by (destruct srcs; [now left|now right]).
  destruct Hcases as [->|Hne].
  - rewrite (H0 eq_refl). split; split; reflexivity.
  - destruct (H1 Hne) as [rest ->]. split; split; intros H;
      try congruence; try discriminate.
    rewrite strip_nonempty in H by reflexivity. discriminate.
Qed.

(** X16. Whatever [answer_question] returns, the answer neither begins
    nor ends with whitespace; an answer that comes without sources is the
    fixed sentence; and an answer that comes with sources comes with all
    the sources retrieval brought. *)
Theorem answer_question_outcome `{E : Env}
    (question : string) (history : option (list (gmap string string)))
    (w w' : World) (r : pipeline.AnswerResult) :
  pipeline.answer_question question history w = (Ok r, w') ->
  surrounded_by_space (pipeline.answer r) = false
  /\ (pipeline.sources r = [] ->
      pipeline.answer r = "The answer is not found in the provided documents.")
  /\ (pipeline.sources r <> [] ->
      exists retrieval w1,
        chroma_store.query_similar question (top_k settings) w
        = (Ok retrieval, w1)
        /\ pipeline.sources r
           = snd (pipeline._format_context_and_sources retrieval)).
Proof.
  unfold pipeline.answer_question. unfold bind at 1.
  destruct (chroma_store.query_similar question (top_k settings) w)
    as [[retrieval|e] w1] eqn:Hq; [|discriminate].
  pose proof (format_context_blank_iff_no_sources retrieval) as [_ Hblank].
  destruct (pipeline._format_context_and_sources retrieval)
    as [context srcs] eqn:Hfmt.
  cbn [fst snd] in Hblank.
  destruct (Str.nonempty (Str.strip context)) eqn:Hne; cbn [negb].
  - unfold bind.
    destruct (llm_interface.get_llm_client w1) as [[llm|e] w2];
      [|discriminate].
    destruct (llm_interface.generate_answer llm context question history w2)
      as [[a|e] w3]; [|discriminate].
    destruct a; unfold lift, Json.strip, raise; try discriminate.
    unfold ret. intros H. inversion H; subst. cbn.
    split; [apply strip_trimmed|]. split.
    + intros Hs. apply Hblank in Hs. discriminate Hs.
    + intros _. exists retrieval, w1. split; [reflexivity|].
      now rewrite Hfmt.
  - unfold ret. intros H. inversion H; subst. cbn.
    split; [vm_compute; reflexivity|]. split; [reflexivity|congruence].
Qed.

Lemma answer_question_outcome_witness :
  let E := demo.demo_env in
  pipeline.answer demo.indexed_answer = "Paris."
  /\ length (pipeline.sources demo.indexed_answer) = 2%nat
  /\ surrounded_by_space (pipeline.answer demo.indexed_answer) = false.
Proof.
  intros E. split; [vm_compute; reflexivity|].
  split; [vm_compute; reflexivity|].
  apply (answer_question_outcome (E := E) "Which capital?" None
           demo.world_indexed
           (snd (pipeline.answer_question "Which capital?" None
                   demo.world_indexed))
           demo.indexed_answer).
  vm_compute. reflexivity.
Defined.

(** ** The availability check and the remote generation client *)

Lemma ext_pass {A} (ev : Event) (act : M A) (w : World) :
  hd None (faults w) = None -> ext ev act w = act (next_world ev w).
Proof.
  destruct w as [e c k l d u f n fs tr]. unfold ext, next_world.
  destruct fs as [|[x|] fs]; cbn; intros H; try discriminate; reflexivity.
Qed.

Lemma ext_ret_Ok {A} (ev : Event) (a r : A) (w w' : World) :
  ext ev (ret a) w = (Ok r, w') -> r = a.
Proof.
  unfold ext. destruct (faults (log_event ev w)) as [|[x|] fs];
    unfold ret; intros H; inversion H; reflexivity.
Qed.

Section Availability.
Context `{E : Env}.

Lemma check_ollama_running_returns (w : World) :
  exists ok msg w', health.check_ollama_running w = (Ok (ok, Some msg), w').
Proof.
  unfold health.check_ollama_running, try_except.
  match goal with
  | |- context [match ?m w with _ => _ end] => destruct (m w) as [[r|e] w'] eqn:H
  end.
  - unfold bind in H.
    destruct (health.requests_get _ w) as [[resp|e] w1]; [|discriminate].
    destruct (_ && _); inversion H; eauto.
  - unfold ret. eauto.
Qed.

Lemma fetch_ollama_tags_Ok (w w' : World) (data : jsonval) :
  health._fetch_ollama_tags w = (Ok data, w') ->
  resp_json (http_get tags_url) = Some data.
Proof.
  unfold health._fetch_ollama_tags, bind.
  destruct (health.requests_get _ w) as [[resp|e] w1] eqn:Hget;
    [|discriminate].
  apply ext_ret_Ok in Hget. subst resp. fold tags_url.
  destruct (health.raise_for_status _ w1) as [[[]|e] w2]; [|discriminate].
  unfold health.json.
  destruct (resp_json (http_get tags_url)); unfold ret, raise; intros H;
    inversion H; reflexivity.
Qed.

Lemma listed_iff (model : string) (models : list jsonval) :
  existsb (Json.eq_str model) models = true <-> In (JStr model) models.
Proof.
  rewrite existsb_exists. split.
  - intros (v & Hin & Heq). destruct v; try discriminate Heq.
    cbn in Heq. apply String.eqb_eq in Heq. now subst.
  - intros Hin. exists (JStr model). split; [assumption|].
    cbn. apply String.eqb_refl.
Qed.


End Availability.

(** X18. [check_ollama_model_present] never raises and always gives a
    message; it answers "present" only with the configured model name as
    its message, and only when the model list of the service was read
    without failure and holds that name. *)
Theorem check_ollama_model_present_outcome `{E : Env} (w : World) :
  exists ok msg w',
    health.check_ollama_model_present w = (Ok (ok, Some msg), w')
    /\ (ok = true ->
        msg = ollama_model settings
        /\ exists data models,
             resp_json (http_get tags_url) = Some data
             /\ health.model_names data = inr models
             /\ In (JStr (ollama_model settings)) models).
Proof.
  unfold health.check_ollama_model_present, try_except.
  match goal with
  | |- context [match ?m w with _ => _ end] => destruct (m w) as [[r|e] w'] eqn:H
  end.
  - unfold bind at 1 in H.
    destruct (check_ollama_running_returns w) as (ok & msg & w1 & Hrun).
    rewrite Hrun in H. destruct ok; cbn [negb] in H.
    + unfold bind at 1 in H.
      destruct (health._fetch_ollama_tags w1) as [[data|e] w2] eqn:Hfetch;
        [|discriminate].
      apply fetch_ollama_tags_Ok in Hfetch.
      unfold bind at 1, lift in H.
      destruct (health.model_names data) as [exc|models] eqn:Hnames;
        unfold raise, ret in H; [discriminate|].
      destruct (existsb _ models) eqn:Hin; inversion H; subst.
      * eexists _, _, _. split; [reflexivity|]. intros _. split; [reflexivity|].
        exists data, models. split; [assumption|]. split; [exact Hnames|].
        now apply listed_iff.
      * eexists _, _, _. split; [reflexivity|]. discriminate.
    + inversion H; subst. eexists _, _, _. split; [reflexivity|]. discriminate.
  - unfold ret. eexists _, _, _. split; [reflexivity|]. discriminate.
Qed.



Section Scenarios.
Context `{E : Env}.

Lemma faults_next_world (ev : Event) (w : World) :
  faults (next_world ev w) = tl (faults w)
  /\ trace (next_world ev w) = trace w ++ [ev].
Proof. split; reflexivity. Qed.



End Scenarios.



(** X21. When the liveness request itself fails, whatever the cause, the
    remote client raises [OllamaUnavailable] with the message
    ["Ollama not running"] after that single request. *)
Theorem generate_answer_unreachable `{E : Env}
    (base_url context question : string)
    (history : option (list (gmap string string)))
    (w : World) (exc : exn) (fs : list (option exn)) :
  faults w = Some exc :: fs ->
  exists w',
    ollama_llm.generate_answer base_url context question history w
    = (Raise (OllamaUnavailable "Ollama not running"), w')
    /\ trace w' = trace w ++ [EvHttpGet root_url]
    /\ faults w' = fs.
Proof.
  intros Hf. destruct w as [e c k l d u f n fs0 tr].
  cbn [faults] in Hf. subst fs0.
  unfold ollama_llm.generate_answer, health.check_ollama_model_present,
    health.check_ollama_running, health.requests_get.
  unfold_m. eexists. split; [|split]; reflexivity.
Qed.

Lemma generate_answer_unreachable_witness :
  let E := demo.demo_env in
  exists w',
    ollama_llm.generate_answer "http://127.0.0.1:11434" "ctx" "q" None
      demo.world_refused
    = (Raise (OllamaUnavailable "Ollama not running"), w')
    /\ trace w' = trace demo.world_refused ++ [EvHttpGet root_url]
    /\ faults w' = [].
Proof.
  intros E.
  apply (generate_answer_unreachable (E := E) "http://127.0.0.1:11434"
           "ctx" "q" None demo.world_refused demo.connection_reset []).
  reflexivity.
Defined.

(** ** History beyond the last ten items *)

Lemma last_items_app_exact {A} (n : nat) (older recent : list A) :
  length recent = n -> last_items n (older ++ recent) = recent.
Proof.
  intros H. unfold last_items. rewrite length_app, H.
  replace (length older + n - n)%nat with (length older) by lia.
  rewrite skipn_app, skipn_all, Nat.sub_diag. reflexivity.
Qed.

(** X17. History items older than the last ten never reach the model:
    with ten recent items, the prompt of either backend is the same
    whatever came before them. *)
Theorem build_prompt_ignores_older_history `{E : Env}
    (context question : string) (older recent : list (gmap string string)) :
  length recent = 10%nat ->
  ollama_llm._build_prompt context question (Some (older ++ recent))
  = ollama_llm._build_prompt context question (Some recent)
  /\ hf_llm._build_prompt context question (Some (older ++ recent))
     = hf_llm._build_prompt context question (Some recent).
Proof.
  intros Hlen.
  assert (H : ollama_llm._build_prompt context question (Some (older ++ recent))
              = ollama_llm._build_prompt context question (Some recent)).
  { rewrite !ollama_prompt_layout. unfold prompt_layout, history_block.
    cbn [default].
    destruct older as [|o os]; [reflexivity|].
    destruct recent as [|r rs]; [discriminate Hlen|].
    cbn [app]. unfold id. cbv beta iota.
    change (o :: os ++ r :: rs) with ((o :: os) ++ r :: rs).
    rewrite (last_items_app_exact 10 (o :: os) (r :: rs) Hlen).
    pose proof (last_items_app_exact 10 [] (r :: rs) Hlen) as Hsame.
    cbn [app] in Hsame. now rewrite Hsame. }
  split; [exact H|]. exact H.
Qed.

Lemma build_prompt_ignores_older_history_witness :
  let E := demo.demo_env in
  let turn : gmap string string := {["role" := "user"; "content" := "hi"]} in
  let old : gmap string string := {["role" := "assistant"; "content" := "x"]} in
  ollama_llm._build_prompt "ctx" "q" (Some ([old; old] ++ repeat turn 10))
  = ollama_llm._build_prompt "ctx" "q" (Some (repeat turn 10))
  /\ hf_llm._build_prompt "ctx" "q" (Some ([old; old] ++ repeat turn 10))
     = hf_llm._build_prompt "ctx" "q" (Some (repeat turn 10)).
Proof.
  intros E turn old.
  apply (build_prompt_ignores_older_history (E := E) "ctx" "q" [old; old]
           (repeat turn 10)).
  reflexivity.
Defined.

(** ** The generation client singleton *)

(** X22. The generation client is a lazy singleton: after a call of
    [get_llm_client] that returns, the client is cached and the next call
    returns it without any call leaving the process; a call can only
    raise for the in-process variant, while loading its model, and then
    nothing is cached; for the remote variant creating the client makes
    no call that leaves the process. *)
Theorem get_llm_client_singleton `{E : Env} (w : World) :
  match llm_interface.get_llm_client w with
  | (Ok client, w1) =>
      _LLM_CLIENT w1 = Some client
      /\ llm_interface.get_llm_client w1 = (Ok client, w1)
      /\ (llm_provider settings = ollama -> trace w1 = trace w)
  | (Raise _, w1) =>
      llm_provider settings = hf
      /\ _LLM_CLIENT w = None /\ _LLM_CLIENT w1 = None
  end.
Proof.
  unfold llm_interface.get_llm_client, hf_llm.init.
  destruct w as [e c k l d u f n fs tr]. unfold_m. unfold set_LLM_CLIENT.
  destruct l; destruct (llm_provider settings); split_faults; simpl;
    repeat split; auto; discriminate.
Qed.

(** ** File names of uploads *)

Lemma rfind_drop (c : ascii) (s : string) :
  existsb (Ascii.eqb c)
    (list_ascii_of_string
       match Str.rfind c s with
       | Some i => Str.drop (S i) s
       | None => s
       end) = false.
Proof.
  induction s as [|d s IH]; [reflexivity|].
  cbn [Str.rfind]. destruct (Str.rfind c s) as [i|].
  - exact IH.
  - destruct (Ascii.eqb c d) eqn:Hcd.
    + exact IH.
    + cbn [list_ascii_of_string existsb]. now rewrite Hcd, IH.
Qed.

Lemma normalize_snoc (c : string) (l acc : list string) :
  c <> ".." -> Path.normalize acc (l ++ [c]) = Path.normalize acc l ++ [c].
Proof.
  intros Hc. revert acc. induction l as [|x l IH]; intros acc.
  - cbn [app Path.normalize].
    replace (String.eqb c "..") with false
      by (symmetry; now apply String.eqb_neq).
    reflexivity.
  - cbn [app Path.normalize]. destruct (String.eqb x ".."); apply IH.
Qed.

Lemma normalize_snoc_parent (l acc : list string) :
  Path.normalize acc (l ++ [".."]) = removelast (Path.normalize acc l).
Proof.
  revert acc. induction l as [|x l IH]; intros acc.
  - cbn [app Path.normalize]. change (String.eqb ".." "..") with true.
    cbv iota. cbn [Path.normalize]. destruct acc as [|a acc].
    + reflexivity.
    + cbn [List.tl List.rev]. now rewrite removelast_last.
  - cbn [app Path.normalize]. destruct (String.eqb x ".."); apply IH.
Qed.

(** X23. The name an upload is saved under holds no path separator, and
    an upload without a file name is saved as [unknown].  For every name
    other than the empty one, [.] and [..] the save path resolves to a
    direct child of the uploads directory.  The name [..], which a file
    name such as [a/..] gives, resolves to the parent of the uploads
    directory, and the empty name and [.] give the uploads directory
    itself; for these three names writing raises and leaves the files as
    they were. *)
Theorem upload_name_stays_in_uploads `{E : Env} (up : main.UploadFile) :
  let name := main.upload_name up in
  let save_path := Path.div (uploads_path settings) name in
  let uploads := Path.parts (Path.resolve cwd (uploads_path settings)) in
  has_slash name = false
  /\ (up_filename_absent up = true -> name = "unknown")
  /\ (name <> "" -> name <> "." -> name <> ".." ->
      Path.parts (Path.resolve cwd save_path) = uploads ++ [name])
  /\ (name = ".." ->
      Path.parts (Path.resolve cwd save_path) = removelast uploads)
  /\ (name = "" \/ name = "." -> save_path = uploads_path settings)
  /\ (name = "" \/ name = "." \/ name = ".." ->
      forall content w,
      exists exc w',
        main.write_bytes save_path name content w = (Raise exc, w')
        /\ files w' = files w).
Proof.
  intros name save_path uploads. split; [|split; [|split; [|split; [|split]]]].
  - unfold name, has_slash, main.upload_name, basename. apply rfind_drop.
  - unfold name, up_filename_absent, main.upload_name, opt_str_or, str_or.
    destruct (main.up_filename up) as [[|c s]|]; try discriminate;
      reflexivity.
  - intros H1 H2 H3. unfold save_path, uploads, Path.div.
    replace (String.eqb name "") with false
      by (symmetry; now apply String.eqb_neq).
    replace (String.eqb name ".") with false
      by (symmetry; now apply String.eqb_neq).
    cbn [orb]. unfold Path.resolve. cbn [Path.parts Path.absolute].
    destruct (Path.absolute (uploads_path settings)).
    + now apply normalize_snoc.
    + rewrite app_assoc. now apply normalize_snoc.
  - intros H. unfold save_path, uploads. rewrite H.
    unfold Path.div. change (String.eqb ".." "" || String.eqb ".." ".")
      with false. cbv iota.
    unfold Path.resolve. cbn [Path.parts Path.absolute].
    destruct (Path.absolute (uploads_path settings)).
    + apply normalize_snoc_parent.
    + rewrite app_assoc. apply normalize_snoc_parent.
  - intros H. unfold save_path, Path.div.
    destruct H as [-> | ->]; reflexivity.
  - intros H content w.
    assert (Hdir : String.eqb name "" || String.eqb name "."
                   || String.eqb name ".." = true).
    { destruct H as [-> | [-> | ->]]; reflexivity. }
    unfold main.write_bytes. rewrite Hdir.
    destruct w as [e c k l d u f n fs tr].
    unfold ext, raise, log_event, set_faults. cbn [faults files].
    destruct fs as [|[x|] fs]; eexists _, _; split; reflexivity.
Qed.

Lemma upload_name_stays_in_uploads_witness :
  let E := demo.demo_env in
  main.upload_name demo.up_dotdot = ".."
  /\ Path.parts
       (Path.resolve cwd
          (Path.div (uploads_path settings) (main.upload_name demo.up_dotdot)))
     = ["srv"; "pko"; "backend"; "data"]
  /\ exists exc w',
       main.write_bytes
         (Path.div (uploads_path settings) (main.upload_name demo.up_dotdot))
         (main.upload_name demo.up_dotdot) "x" demo.world0
       = (Raise exc, w')
       /\ files w' = files demo.world0.
Proof.
  intros E.
  destruct (upload_name_stays_in_uploads (E := E) demo.up_dotdot)
    as (_ & _ & _ & Hparent & _ & Hwrite).
  split; [reflexivity|]. split.
  - rewrite (Hparent eq_refl). reflexivity.
  - apply Hwrite. right. right. reflexivity.
Defined.

(** ** An upload with an unknown extension *)

(** X24. An upload whose file name has an unknown extension is written to
    the uploads directory before it is rejected: when reading and saving
    meet no failure, the turn of the loop records the [ValueError]
    message with [file_type: null] and no chunks, the bytes are on disk
    under the upload's name, and the vector store is not touched: the two
    calls of reading and writing are the only ones that leave the
    process. *)
Theorem ingest_unsupported_is_saved `{E : Env}
    (up : main.UploadFile) (rs : list main.IngestFileResult) (total : Z)
    (w : World) :
  main.upload_name up <> "" -> main.upload_name up <> "." ->
  main.upload_name up <> ".." ->
  ~ In (Str.lower (Path.suffix (Path.of_name (main.upload_name up))))
       recognized_suffixes ->
  hd None (faults w) = None -> hd None (tl (faults w)) = None ->
  exists w',
    main.ingest_step up (rs, total) w
    = (Ok (rs ++
             [main.mkIngestFileResult (main.upload_name up) None 0
                (Some ("Unsupported file type for " +:+
                       Path.as_posix
                         (Path.resolve cwd
                            (Path.div (uploads_path settings)
                               (main.upload_name up)))))],
           total), w')
    /\ files w'
       = <[Path.as_posix (Path.div (uploads_path settings) (main.upload_name up))
           := main.up_content up]> (files w)
    /\ chroma_dir w' = chroma_dir w
    /\ trace w'
       = trace w ++
         [EvUploadRead (default "" (main.up_filename up));
          EvWriteBytes
            (Path.as_posix
               (Path.div (uploads_path settings) (main.upload_name up)))].
Proof.
  intros H1 H2 H3 Hsuffix Hf1 Hf2.
  set (filename := main.upload_name up) in *.
  set (save_path := Path.div (uploads_path settings) filename).
  set (w1 := next_world (EvUploadRead (default "" (main.up_filename up))) w).
  set (w2 := set_files (<[Path.as_posix save_path := main.up_content up]>
                          (files w1))
               (next_world (EvWriteBytes (Path.as_posix save_path)) w1)).
  assert (Hread : main.read up w = (Ok (main.up_content up), w1)).
  { unfold main.read. now rewrite ext_pass. }
  assert (Hwrite : main.write_bytes save_path filename (main.up_content up) w1
                   = (Ok tt, w2)).
  { unfold main.write_bytes. rewrite ext_pass by exact Hf2.
    replace (String.eqb filename "") with false
      by (symmetry; now apply String.eqb_neq).
    replace (String.eqb filename ".") with false
      by (symmetry; now apply String.eqb_neq).
    replace (String.eqb filename "..") with false
      by (symmetry; now apply String.eqb_neq).
    reflexivity. }
  assert (Hnone : loader.detect_file_type (Path.of_name filename) = None)
    by now apply detect_file_type_unknown.
  assert (Hdetect : loader.detect_file_type (Path.resolve cwd save_path) = None).
  { rewrite <- Hnone. apply detect_file_type_name.
    unfold save_path. now rewrite resolved_name, of_name_name. }
  assert (Hload : loader.load_file save_path w2
                  = (Raise (ValueError ("Unsupported file type for " +:+
                                        Path.as_posix
                                          (Path.resolve cwd save_path))), w2)).
  { unfold loader.load_file. now rewrite Hdetect. }
  exists w2. split; [|split; [|split]].
  - unfold main.ingest_step. fold filename. fold save_path.
    assert (Htry : main.ingest_try up filename save_path (rs, total) w
                   = (Raise (ValueError ("Unsupported file type for " +:+
                                         Path.as_posix
                                           (Path.resolve cwd save_path))),
                      w2)).
    { unfold main.ingest_try.
      rewrite (bind_Ok _ _ _ _ _ Hread), (bind_Ok _ _ _ _ _ Hwrite).
      now rewrite (bind_Raise _ _ _ _ _ Hload). }
    rewrite (try_Raise _ _ _ _ _ Htry).
    unfold main.ingest_except, main.ftype_of. rewrite Hnone. reflexivity.
  - reflexivity.
  - reflexivity.
  - unfold w2, w1, next_world, set_files, set_faults, log_event. cbn [trace].
    now rewrite <- app_assoc.
Qed.

Lemma ingest_unsupported_is_saved_witness :
  let E := demo.demo_env in
  exists w',
    main.ingest_step demo.slides_pptx ([], 0) demo.world0
    = (Ok ([main.mkIngestFileResult "slides.pptx" None 0
              (Some "Unsupported file type for /srv/pko/backend/data/uploads/slides.pptx")],
           0), w')
    /\ files w' = {[ "/srv/pko/backend/data/uploads/slides.pptx" := "PK" ]}
    /\ chroma_dir w' = None
    /\ trace w'
       = [EvUploadRead "talks/slides.pptx";
          EvWriteBytes "/srv/pko/backend/data/uploads/slides.pptx"].
Proof.
  intros E.
  destruct (ingest_unsupported_is_saved (E := E) demo.slides_pptx [] 0
              demo.world0) as (w' & H1 & H2 & H3 & H4);
    try (vm_compute; intuition discriminate).
  exists w'. split; [exact H1|]. split; [|split].
  - rewrite H2. vm_compute. reflexivity.
  - exact H3.
  - exact H4.
Defined.

(** ** The [/query] handler *)

(** X25. A failure of the [/query] handler is one of two things.  Either
    the pipeline returned and building the response raised the validation
    error; or the pipeline raised, and the handler answers with an
    [HTTPException] whose status is 500, 502 or 503: 502 exactly for a
    failed generation request, 503 exactly for a service that is not running
    or a model that is not installed, 500 for every other exception.  In both
    cases the handler itself touches nothing: the process is left as
    the pipeline left it. *)
Theorem query_failures_are_http `{E : Env}
    (validate_sources : list pipeline.Source -> exn + list schemas.Source)
    (req : schemas.QueryRequest) (w w' : World) (e : exn) :
  main.query validate_sources req w = (Raise e, w') ->
  let asked :=
    pipeline.answer_question (schemas.question req)
      (Some (map schemas.dict (default [] (schemas.history req)))) w in
  (exists r, asked = (Ok r, w')
             /\ validate_sources (pipeline.sources r) = inl e)
  \/ (exists exc status detail,
        asked = (Raise exc, w')
        /\ e = HTTPException status detail
        /\ In status query_failure_statuses
        /\ (status = 502 <-> is_request_failed exc = true)
        /\ (status = 500 <-> is_ollama_error exc = false)).
Proof.
  intros H asked. subst asked.
  unfold main.query, bind, try_except in H.
  destruct (pipeline.answer_question _ _ w) as [[r|exc] w0] eqn:Hp.
  - left. exists r.
    destruct (validate_sources (pipeline.sources r)) as [exc|srcs] eqn:Hv;
      unfold raise, ret in H; [|discriminate H].
    injection H as <- <-. now split.
  - right. exists exc.
    destruct exc; unfold raise in H; injection H as <- <-;
      do 2 eexists; (split; [reflexivity|]); (split; [reflexivity|]);
      unfold query_failure_statuses, is_request_failed, is_ollama_error;
      cbn [In]; repeat split; intros; try lia; try discriminate; auto.
Qed.

Lemma query_failures_are_http_witness :
  let E := demo.demo_env in
  exists w',
    main.query demo.validate (schemas.mkQueryRequest "Which capital?" None)
      demo.world_readonly
    = (Raise (HTTPException 500 "RAG pipeline failed."), w')
    /\ pipeline.answer_question "Which capital?" (Some []) demo.world_readonly
       = (Raise demo.permission_denied, w').
Proof.
  intros E.
  assert (Hq : exists w',
             main.query demo.validate
               (schemas.mkQueryRequest "Which capital?" None)
               demo.world_readonly
             = (Raise (HTTPException 500 "RAG pipeline failed."), w'))
    by (eexists; vm_compute; reflexivity).
  destruct Hq as [w' Hq]. exists w'. split; [exact Hq|].
  destruct (query_failures_are_http (E := E) demo.validate _ _ _ _ Hq)
    as [(r & Hr & Hv) | (exc & status & detail & Hp & He & _ & _ & H500)].
  - discriminate Hv.
  - injection He as <- <-.
    change (pipeline.answer_question "Which capital?" (Some [])
              demo.world_readonly = (Raise exc, w')) in Hp.
    rewrite Hp. f_equal. f_equal.
    assert (Hx : fst (pipeline.answer_question "Which capital?" (Some [])
                        demo.world_readonly) = Raise demo.permission_denied)
      by (vm_compute; reflexivity).
    rewrite Hp in Hx. cbn [fst] in Hx. now injection Hx.
Defined.
